(** * sbox: root namespace assembly and stdio import

    A shallow embedding of [sbox/sbox.go]: the functions [createRootMount],
    [addSubmountOverlay], [createMountNamespace], [createFDMap] and [Run] are
    transcribed statement by statement.  The gVisor packages they drive
    ([fs], [ramfs], [host], [kernel]) are outside the repository; every call
    into them is kept as a call, its outcome is read from an environment of
    oracles ([Env]), and the inode it yields is recorded as a term ([Inode])
    whose shape is exactly the sequence of calls made.

    Reference counting ([IncRef]/[DecRef] and the deferred releases) only
    manages memory and is left out. *)

From stdpp Require Import gmap strings list pretty.
From Stdlib Require Import Ascii String.

Open Scope string_scope.
Open Scope list_scope.

(** ** Errors and outcomes *)

(** Error numbers returned by the external packages. *)
Inductive Errno :=
  | ENOENT   (* NotFound *)
  | ELOOP    (* SymlinkLimitExceeded *)
  | ENOTDIR
  | EBADF
  | EMFILE
  | EINVAL
  | EIO.

(** Go [error] values: an external error number, a fresh message, or
    [fmt.Errorf("<prefix>: %v", err)]. *)
Inductive error :=
  | Sys (e : Errno)
  | Msg (s : string)
  | Errorf (prefix : string) (cause : error).

(** Outcome of a Go call that returns [(T, error)] and may panic. *)
Inductive result (A : Type) :=
  | Ok (a : A)
  | Err (e : error)
  | Panic (msg : string).
Arguments Ok {A} a.
Arguments Err {A} e.
Arguments Panic {A} msg.

Definition result_bind {A B} (r : result A) (k : A → result B) : result B :=
  match r with
  | Ok a => k a
  | Err e => Err e
  | Panic m => Panic m
  end.

#[global] Instance result_ret : MRet result := λ A a, Ok a.
#[global] Instance result_mbind : MBind result := λ A B k r, result_bind r k.

(** [if err != nil { return nil, fmt.Errorf("<prefix>: %v", err) }] *)
Definition wrap {A} (prefix : string) (r : result A) : result A :=
  match r with
  | Err e => Err (Errorf prefix e)
  | _ => r
  end.

(** ** Go standard library: [strings.Split], [filepath.IsAbs], [filepath.Join] *)

Module strings.

(** [strings.Split(s, sep)] for a one-character separator: [s] is cut at
    every occurrence of [sep]; a string without [sep] (the empty string
    included) gives a slice of length one. *)
Fixpoint Split (s : string) (sep : ascii) : list string :=
  match s with
  | EmptyString => [EmptyString]
  | String c rest =>
      if Ascii.eqb c sep then EmptyString :: Split rest sep
      else match Split rest sep with
           | [] => [String c EmptyString]
           | h :: t => String c h :: t
           end
  end.

Fixpoint Join (elems : list string) (sep : string) : string :=
  match elems with
  | [] => ""
  | [e] => e
  | e :: rest => e +:+ sep +:+ Join rest sep
  end.

End strings.

Module filepath.

Definition IsAbs (path : string) : bool :=
  match path with
  | String c _ => Ascii.eqb c "/"%char
  | EmptyString => false
  end.

(** One step of [Clean] on the stack of kept elements (innermost first). *)
Definition cleanStep (rooted : bool) (stack : list string) (c : string)
  : list string :=
  if String.eqb c "" then stack
  else if String.eqb c "." then stack
  else if String.eqb c ".." then
    match stack with
    | top :: below =>
        if String.eqb top ".." then c :: stack else below
    | [] => if rooted then [] else [c]
    end
  else c :: stack.

(** [filepath.Clean] on Unix: repeated separators, [.] elements and inner
    [..] elements are removed; the empty result is [.]. *)
Definition Clean (path : string) : string :=
  let rooted := IsAbs path in
  let kept := rev (fold_left (cleanStep rooted) (strings.Split path "/"%char) []) in
  if rooted then "/" +:+ strings.Join kept "/"
  else match kept with
       | [] => "."
       | _ => strings.Join kept "/"
       end.

(** [filepath.Join(a, b)]: empty leading elements are ignored, the rest is
    joined with the separator and cleaned. *)
Definition Join (a b : string) : string :=
  if String.eqb a "" then
    if String.eqb b "" then "" else Clean b
  else Clean (a +:+ "/" +:+ b).

End filepath.

(** ** The external filesystem layer ([fs], [ramfs], [host]) *)

(** [fs.MountSourceFlags]; the source only ever sets [ReadOnly]. *)
Record MountSourceFlags := { ReadOnly : bool }.

(** The filesystems registered by the packages this file imports. *)
Inductive Filesystem :=
  | whitelistfs   (* fs/host *)
  | devtmpfs      (* fs/dev *)
  | procfs        (* fs/proc *)
  | sysfs         (* fs/sys *)
  | tmpfsfs       (* fs/tmpfs *)
  | devpts.       (* fs/tty *)

(** [fs.FindFilesystem(name)]. *)
Definition FindFilesystem (name : string) : option Filesystem :=
  if String.eqb name "whitelistfs" then Some whitelistfs
  else if String.eqb name "devtmpfs" then Some devtmpfs
  else if String.eqb name "proc" then Some procfs
  else if String.eqb name "sysfs" then Some sysfs
  else if String.eqb name "tmpfs" then Some tmpfsfs
  else if String.eqb name "devpts" then Some devpts
  else None.

(** An [*fs.Inode], recorded as the call that produced it:
    [Filesystem.Mount(ctx, device, flags, data, nil)],
    [ramfs.MakeDirectoryTree(ctx, msrc, paths)] or
    [fs.NewOverlayRoot(ctx, upper, lower, flags)]. *)
Inductive Inode :=
  | MountRoot (f : Filesystem) (device : string) (flags : MountSourceFlags)
              (data : string)
  | DirectoryTree (paths : list string)
  | OverlayRoot (upper lower : Inode) (flags : MountSourceFlags).

#[global] Instance MountSourceFlags_eq_dec : EqDecision MountSourceFlags.
Proof. solve_decision. Defined.
#[global] Instance Filesystem_eq_dec : EqDecision Filesystem.
Proof. solve_decision. Defined.
#[global] Instance Inode_eq_dec : EqDecision Inode.
Proof. solve_decision. Defined.

(** What a name denotes inside a tree. *)
Inductive Entry :=
  | Directory
  | RegularFile (content : string)
  | Symlink (target : string).

(** Modelled from the spec: an InodeTree, "a rooted tree of named entries
    (directories, files, symlinks, mount points)", as the entry found at
    each path (list of names from the tree's root). *)
Definition Tree := list string → option Entry.

Definition emptyTree : Tree :=
  λ p, match p with [] => Some Directory | _ => None end.

(** The names of a slash-separated path. *)
Definition components (path : string) : list string :=
  filter (λ c, c ≠ "") (strings.Split path "/"%char).

Fixpoint isPrefix (p q : list string) : bool :=
  match p, q with
  | [], _ => true
  | a :: p', b :: q' => String.eqb a b && isPrefix p' q'
  | _ :: _, [] => false
  end.

(** Modelled from the spec: the Synthetic Subtree Builder, "an in-memory
    directory tree containing exactly those paths as empty mount points". *)
Definition directoryTree (paths : list string) : Tree :=
  λ p, match p with
       | [] => Some Directory
       | _ => if existsb (λ q, isPrefix p (components q)) paths
              then Some Directory else None
       end.

(** Modelled from the spec: the Overlay Composer, "the upper tree's entries
    shadow the lower tree's entries at matching paths". *)
Definition overlayTree (upper lower : Tree) : Tree :=
  λ p, match upper p with
       | Some e => Some e
       | None => lower p
       end.

(** The content of every mounted layer, by the inode that names it. *)
Definition Store := Inode → Tree.

(** The tree seen through an inode: overlays compose their two sides. *)
Fixpoint view (s : Store) (i : Inode) : Tree :=
  match i with
  | OverlayRoot u l _ => overlayTree (view s u) (view s l)
  | _ => s i
  end.

(** Modelled from the spec: the Overlay Composer, "writes land in the upper
    tree".  The layer that receives a mutation made through [i]. *)
Fixpoint writeLayer (i : Inode) : Inode :=
  match i with
  | OverlayRoot u _ _ => writeLayer u
  | _ => i
  end.

(** A mutation [f] (create, write, unlink, ...) made through [root]. *)
Definition mutate (root : Inode) (f : Tree → Tree) (s : Store) : Store :=
  λ i, if decide (i = writeLayer root) then f (s i) else s i.

(** Overwriting the file at path [p]. *)
Definition writeFile (p : list string) (content : string) (t : Tree) : Tree :=
  λ q, if decide (q = p) then Some (RegularFile content) else t q.

(** Modelled from the spec: path resolution, "each path component is looked
    up in the current directory entry; encountering a symlink consumes one
    unit of budget and restarts resolution of the link's target"; a symlink
    met with no budget left is SymlinkLimitExceeded ([ELOOP]), an absent
    component is NotFound ([ENOENT]).  [cur] is the directory reached so far,
    [rest] the names still to look up; the result carries the budget left. *)
Fixpoint resolve (t : Tree) (budget : nat)
  : list string → list string → result (list string) * nat :=
  fix go (cur rest : list string) {struct rest} :=
    match rest with
    | [] => (Ok cur, budget)
    | c :: rest' =>
        match t (cur ++ [c]) with
        | None => (Err (Sys ENOENT), budget)
        | Some Directory => go (cur ++ [c]) rest'
        | Some (RegularFile _) =>
            match rest' with
            | [] => (Ok (cur ++ [c]), budget)
            | _ => (Err (Sys ENOTDIR), budget)
            end
        | Some (Symlink target) =>
            match budget with
            | 0 => (Err (Sys ELOOP), 0)
            | S b =>
                resolve t b (if filepath.IsAbs target then [] else cur)
                        (components target ++ rest')
            end
        end
    end.

(** ** Kernel-side data ([kernel], [auth], [limits]) *)

Record Credentials := { KUID : Z; KGID : Z }.

(** A [context.Context]; the source only draws the file owner from it. *)
Record Context := { ctxCredentials : Credentials }.

Record FileOwner := { UID : Z; GID : Z }.

(** [fs.FileOwnerFromContext(ctx)]. *)
Definition FileOwnerFromContext (ctx : Context) : FileOwner :=
  {| UID := KUID (ctxCredentials ctx); GID := KGID (ctxCredentials ctx) |}.

Record LimitSet := { NumberOfFiles : Z }.

Record FDFlags := { CloseOnExec : bool }.

(** An [*fs.File] is a handle into the table of file objects: two
    descriptors alias exactly when they hold the same handle. *)
Definition FileRef := nat.

Definition ProcessGroup := nat.

Record ThreadGroup := { tgProcessGroup : ProcessGroup }.

(** Modelled from the spec: a file object imported from a host descriptor;
    a TerminalFile carries "a foreground-process-group identifier". *)
Record File := {
  hostFD : Z;
  isTTY : bool;
  fileOwner : FileOwner;
  fgProcessGroup : option ProcessGroup
}.

(** [kernel.FDMap]: sandbox descriptor number to file and flags. *)
Definition FDMap := gmap Z (FileRef * FDFlags).

(** [fs.MountNamespace]: the root inode and the mounts attached later, each
    at the directory entry (path from the root) it was attached to. *)
Record MountNamespace := {
  mnsRoot : Inode;
  mnsMounts : list (list string * Inode)
}.

(** [kernel.CreateProcessArgs], the fields [Run] fills in that matter here. *)
Record CreateProcessArgs := {
  Argv : list string;
  WorkingDirectory : string;
  ArgsCredentials : Credentials;
  Umask : Z;
  ArgsMaxSymlinkTraversals : nat;
  ArgsFDMap : option FDMap
}.

(** [CreateProcessArgs.NewContext(k)]. *)
Definition NewContext (args : CreateProcessArgs) : Context :=
  {| ctxCredentials := ArgsCredentials args |}.

Record Kernel := {
  kMounts : option MountNamespace;
  kGlobalInit : option ThreadGroup;
  kStarted : bool
}.

(** Calls into the kernel, in the order they happen; the creation of a
    process is logged with its process group and the descriptor table it
    was given. *)
Inductive Event :=
  | EvSetRootMountNamespace (mns : MountNamespace)
  | EvCreateProcess (pg : ProcessGroup) (fdm : option FDMap)
  | EvInitForegroundProcessGroup (f : FileRef) (pg : ProcessGroup)
  | EvStart
  | EvWaitExited.

(** Everything [Run] mutates: the file objects, the kernel, and the log of
    kernel calls. *)
Record World := {
  files : gmap FileRef File;
  nextFile : FileRef;
  nextProcessGroup : ProcessGroup;
  kernel : Kernel;
  trace : list Event
}.

Definition newKernel : Kernel :=
  {| kMounts := None; kGlobalInit := None; kStarted := false |}.

Definition newWorld : World :=
  {| files := ∅; nextFile := 0; nextProcessGroup := 1;
     kernel := newKernel; trace := [] |}.

(** ** The environment: how the external calls turn out *)

Record Env := {
  (** [os.Getwd()] *)
  Getwd : result string;
  (** the host directory a whitelistfs mount with this option data exposes *)
  hostTree : string → Tree;
  (** [Filesystem.Mount(ctx, device, flags, data, nil)] for filesystem, device, data *)
  mountFails : Filesystem → string → string → option Errno;
  (** [ramfs.MakeDirectoryTree] *)
  directoryTreeFails : list string → option Errno;
  (** [fs.NewOverlayRoot] on non-nil upper and lower *)
  overlayFails : Inode → Inode → option Errno;
  (** [fs.NewMountNamespace] *)
  namespaceFails : Inode → option Errno;
  (** [MountNamespace.Mount] at a directory entry *)
  attachFails : list string → Inode → option Errno;
  (** [host.ImportFile] of a host descriptor, as a TTY or not *)
  importFails : Z → bool → option Errno;
  (** [FDMap.NewFDAt] *)
  newFDFails : LimitSet → Z → option Errno;
  (** the order in which [range] visits the keys of [createFDMap]'s map;
      Go leaves it unspecified *)
  rangeOrder : list Z;
  (** [linux.MaxSymlinkTraversals] *)
  MaxSymlinkTraversals : nat;
  (** [Kernel.CreateProcess], [Kernel.Start] *)
  createProcessFails : option Errno;
  startFails : option Errno;
  (** the set-up calls at the head of [Run] *)
  usageInitFails : option Errno;
  newPlatformFails : option Errno;
  createMemFDFails : option Errno;
  newMemoryFileFails : option Errno;
  prepareVDSOFails : option Errno;
  newTimekeeperFails : option Errno;
  (** [netStack(k, hostNet)]: whether the stack is a [*hostinet.Stack] *)
  netStack : bool → result bool;
  configureFails : option Errno;
  kernelInitFails : option Errno;
  NewLinuxLimitSet : result LimitSet
}.

(** An external call that either fails with an error number or yields [a]. *)
Definition outcome {A} (failure : option Errno) (a : A) : result A :=
  match failure with
  | Some e => Err (Sys e)
  | None => Ok a
  end.

Section External.
Context (env : Env).

(** [f.Mount(ctx, device, flags, data, nil)]. *)
Definition Mount (f : Filesystem) (ctx : Context) (device : string)
    (flags : MountSourceFlags) (data : string) : result Inode :=
  outcome (mountFails env f device data) (MountRoot f device flags data).

(** [ramfs.MakeDirectoryTree(ctx, msrc, subdirs)]. *)
Definition MakeDirectoryTree (ctx : Context) (subdirs : list string)
  : result Inode :=
  outcome (directoryTreeFails env subdirs) (DirectoryTree subdirs).

(** [fs.NewOverlayRoot(ctx, upper, lower, flags)].  Both arguments are
    pointers; the composer reads through them, so a nil one panics. *)
Definition NewOverlayRoot (ctx : Context) (upper lower : option Inode)
    (flags : MountSourceFlags) : result Inode :=
  match upper, lower with
  | Some u, Some l => outcome (overlayFails env u l) (OverlayRoot u l flags)
  | _, _ => Panic "invalid memory address or nil pointer dereference"
  end.

(** [fs.NewMountNamespace(ctx, root)]. *)
Definition NewMountNamespace (ctx : Context) (root : Inode)
  : result MountNamespace :=
  outcome (namespaceFails env root) {| mnsRoot := root; mnsMounts := [] |}.

(** The content of each layer when the sandbox is assembled: host
    directories as the host has them, a fresh tmpfs empty, a synthetic tree
    with its directories. *)
Definition initialStore : Store :=
  λ i, match i with
       | MountRoot whitelistfs _ _ data => hostTree env data
       | MountRoot _ _ _ _ => emptyTree
       | DirectoryTree paths => directoryTree paths
       | OverlayRoot _ _ _ => emptyTree
       end.

(** [mns.FindInode(ctx, root, wd, path, maxTraversals)]: an absolute path
    is resolved from [root], another from [wd]; the counter behind
    [maxTraversals] is decremented in place, so the budget left is returned
    with the outcome. *)
Definition FindInode (mns : MountNamespace) (ctx : Context)
    (root wd : list string) (path : string) (maxTraversals : nat)
  : result (list string) * nat :=
  resolve (view initialStore (mnsRoot mns)) maxTraversals
          (if filepath.IsAbs path then root else wd) (components path).

(** [mns.Mount(ctx, dirent, inode)]. *)
Definition MountAt (mns : MountNamespace) (ctx : Context)
    (dirent : list string) (inode : Inode) : result MountNamespace :=
  outcome (attachFails env dirent inode)
    {| mnsRoot := mnsRoot mns;
       mnsMounts := (dirent, inode) :: mnsMounts mns |}.

(** [fdm.NewFDAt(fd, file, flags, limitSet)]. *)
Definition NewFDAt (fdm : FDMap) (fd : Z) (file : FileRef) (flags : FDFlags)
    (l : LimitSet) : result FDMap :=
  outcome (newFDFails env l fd) (<[fd := (file, flags)]> fdm).

End External.

(** ** The state-and-error monad of [Run] *)

Definition M (A : Type) : Type := World → result A * World.

#[global] Instance M_ret : MRet M := λ A a w, (Ok a, w).
#[global] Instance M_bind : MBind M := λ A B k m w,
  match m w with
  | (Ok a, w') => k a w'
  | (Err e, w') => (Err e, w')
  | (Panic msg, w') => (Panic msg, w')
  end.

(** A call that does not touch the world. *)
Definition lift {A} (r : result A) : M A := λ w, (r, w).

Definition wrapM {A} (prefix : string) (m : M A) : M A :=
  λ w, let '(r, w') := m w in (wrap prefix r, w').

Definition modifyKernel (f : Kernel → Kernel) : M unit :=
  λ w, (Ok (), {| files := files w; nextFile := nextFile w;
                  nextProcessGroup := nextProcessGroup w;
                  kernel := f (kernel w); trace := trace w |}).

Definition emit (e : Event) : M unit :=
  λ w, (Ok (), {| files := files w; nextFile := nextFile w;
                  nextProcessGroup := nextProcessGroup w;
                  kernel := kernel w; trace := trace w ++ [e] |}).

Section Sbox.
Context (env : Env).

(** [host.ImportFile(ctx, fd, mounter, isTTY)]: a fresh file object on
    every successful call. *)
Definition ImportFile (ctx : Context) (fd : Z) (mounter : FileOwner)
    (tty : bool) : M FileRef :=
  λ w, match importFails env fd tty with
       | Some e => (Err (Sys e), w)
       | None =>
           (Ok (nextFile w),
            {| files := <[nextFile w :=
                            {| hostFD := fd; isTTY := tty;
                               fileOwner := mounter;
                               fgProcessGroup := None |}]> (files w);
               nextFile := S (nextFile w);
               nextProcessGroup := nextProcessGroup w;
               kernel := kernel w; trace := trace w |})
       end.

(** [k.RootMountNamespace()]. *)
Definition RootMountNamespace : M (option MountNamespace) :=
  λ w, (Ok (kMounts (kernel w)), w).

(** [k.SetRootMountNamespace(mns)]. *)
Definition SetRootMountNamespace (mns : MountNamespace) : M unit :=
  modifyKernel (λ k, {| kMounts := Some mns; kGlobalInit := kGlobalInit k;
                        kStarted := kStarted k |});;
  emit (EvSetRootMountNamespace mns).

(** [k.CreateProcess(args)]: on success a new thread group in a new process
    group exists; it becomes the global init if there is none yet. *)
Definition CreateProcess (args : CreateProcessArgs) : M unit :=
  λ w, match createProcessFails env with
       | Some e => (Err (Sys e), w)
       | None =>
           let pg := nextProcessGroup w in
           let k := kernel w in
           (Ok (),
            {| files := files w; nextFile := nextFile w;
               nextProcessGroup := S pg;
               kernel := {| kMounts := kMounts k;
                            kGlobalInit :=
                              match kGlobalInit k with
                              | None => Some {| tgProcessGroup := pg |}
                              | Some tg => Some tg
                              end;
                            kStarted := kStarted k |};
               trace := trace w ++ [EvCreateProcess pg (ArgsFDMap args)] |})
       end.

(** [k.GlobalInit()]. *)
Definition GlobalInit : M (option ThreadGroup) :=
  λ w, (Ok (kGlobalInit (kernel w)), w).

(** [fdm.GetFile(fd)]. *)
Definition GetFile (fdm : option FDMap) (fd : Z) : option FileRef :=
  match fdm with
  | Some m => fst <$> m !! fd
  | None => None
  end.

(** The type assertion of [ttyFile.FileOperations] to
    [host.TTYFileOperations] followed by
    [InitForegroundProcessGroup(pg)]: the assertion panics on a nil file or
    on one that was not imported as a TTY, the setter on an already set
    group. *)
Definition InitForegroundProcessGroup (ttyFile : option FileRef)
    (tg : option ThreadGroup) : M unit :=
  λ w, match ttyFile, tg with
       | Some h, Some tg =>
           match files w !! h with
           | Some f =>
               if isTTY f then
                 match fgProcessGroup f with
                 | Some _ => (Panic "foreground process group is already set", w)
                 | None =>
                     (Ok (),
                      {| files := <[h := {| hostFD := hostFD f; isTTY := isTTY f;
                                            fileOwner := fileOwner f;
                                            fgProcessGroup := Some (tgProcessGroup tg) |}]>
                                    (files w);
                         nextFile := nextFile w;
                         nextProcessGroup := nextProcessGroup w;
                         kernel := kernel w;
                         trace := trace w ++
                           [EvInitForegroundProcessGroup h (tgProcessGroup tg)] |})
                 end
               else (Panic "interface conversion: not *host.TTYFileOperations", w)
           | None => (Panic "invalid memory address or nil pointer dereference", w)
           end
       | _, _ => (Panic "invalid memory address or nil pointer dereference", w)
       end.

(** [k.Start()]. *)
Definition Start : M unit :=
  λ w, match startFails env with
       | Some e => (Err (Sys e), w)
       | None =>
           (Ok (),
            {| files := files w; nextFile := nextFile w;
               nextProcessGroup := nextProcessGroup w;
               kernel := {| kMounts := kMounts (kernel w);
                            kGlobalInit := kGlobalInit (kernel w);
                            kStarted := true |};
               trace := trace w ++ [EvStart] |})
       end.

(** [k.WaitExited()]. *)
Definition WaitExited : M unit := emit EvWaitExited.

(** *** [addSubmountOverlay] (lines 184-197) *)

Definition addSubmountOverlay (ctx : Context) (inode : option Inode)
    (submounts : list string) : result Inode :=
  mountTree ← wrap "error creating mount tree"
                (MakeDirectoryTree env ctx submounts);
  overlayInode ← wrap "failed to make mount overlay"
                   (NewOverlayRoot env ctx inode (Some mountTree)
                      {| ReadOnly := false |});
  Ok overlayInode.

(** *** [createRootMount] (lines 235-292) *)

(** The [for i, m := range mounts] loop (lines 253-269), entered at index
    [i] with the current values of [rootInode] and [prevInode]; it yields
    [rootInode] as the loop leaves it. *)
Fixpoint createRootMount_range (ctx : Context) (host : Filesystem)
    (mf : MountSourceFlags) (wd : string) (i : nat) (mounts : list string)
    (rootInode prevInode : option Inode) : result (option Inode) :=
  match mounts with
  | [] => Ok rootInode
  | m :: rest =>
      let m := if negb (filepath.IsAbs m) then filepath.Join wd m else m in
      rootInode ← wrap "failed to generate root mount point"
                    (Mount env host ctx "" mf ("root=" +:+ m));
      rootInode ← (if negb (i =? 0)%nat then
                      wrap "failed to make mount overlay"
                        (NewOverlayRoot env ctx (Some rootInode) prevInode
                           {| ReadOnly := false |})
                    else Ok rootInode);
      createRootMount_range ctx host mf wd (S i) rest
        (Some rootInode) (Some rootInode)
  end.

Definition submounts : list string := ["/dev"; "/sys"; "/proc"; "/tmp"].

Definition createRootMount (ctx : Context) (mounts : list string)
  : result Inode :=
  let mf := {| ReadOnly := false |} in
  wd ← Getwd env;
  match FindFilesystem "whitelistfs" with
  | None => Panic "could not find filesystem host"
  | Some host =>
      rootInode ← createRootMount_range ctx host mf wd 0 mounts None None;
      rootInode ← wrap "error adding submount overlay"
                    (addSubmountOverlay ctx rootInode submounts);
      match FindFilesystem "tmpfs" with
      | None => Panic "could not find filesystem tmpfs"
      | Some tmpfs =>
          upper ← wrap "failed to create tmpfs overlay"
                    (Mount env tmpfs ctx "upper" {| ReadOnly := false |} "");
          rootInode ← wrap "failed to make mount overlay"
                        (NewOverlayRoot env ctx (Some upper) (Some rootInode)
                           {| ReadOnly := false |});
          Ok rootInode
      end
  end.

(** *** [createMountNamespace] (lines 199-233) *)

(** Lines 200-221: everything before the lookup of the mount point. *)
Definition createMountNamespace_prepare (userCtx rootCtx : Context)
    (mounts : list string) : result (MountNamespace * Inode) :=
  rootInode ← wrap "failed to create root mount"
                (createRootMount rootCtx mounts);
  mns ← wrap "failed to create root mount namespace"
          (NewMountNamespace env userCtx rootInode);
  match FindFilesystem "proc" with
  | None => Panic "could not find filesystem proc"
  | Some proc =>
      let ctx := rootCtx in
      inode ← wrap "failed to create mount with source"
                (Mount env proc ctx "none" {| ReadOnly := false |} "");
      Ok (mns, inode)
  end.

(** The whole function; [maxTraversals] is a pointer in the source, so the
    counter's final value is returned beside the outcome. *)
Definition createMountNamespace (userCtx rootCtx : Context)
    (mounts : list string) (maxTraversals : nat)
  : result MountNamespace * nat :=
  match createMountNamespace_prepare userCtx rootCtx mounts with
  | Ok (mns, inode) =>
      let root : list string := [] in
      let ctx := rootCtx in
      let '(found, remaining) := FindInode env mns ctx root root "/proc" maxTraversals in
      (dirent ← wrap "failed to find mount destination" found;
       wrap "failed to mount at destination" (MountAt env mns ctx dirent inode),
       remaining)
  | Err e => (Err e, maxTraversals)
  | Panic msg => (Panic msg, maxTraversals)
  end.

(** *** [createFDMap] (lines 294-352) *)

(** The [for appFD, hostFD := range fdMap] loop (lines 311-348) over the
    keys still to visit, with the current [ttyFile] and descriptor table. *)
Fixpoint createFDMap_range (ctx : Context) (l : LimitSet) (console : bool)
    (mounter : FileOwner) (fdMap : gmap Z Z) (keys : list Z)
    (ttyFile : option FileRef) (fdm : FDMap) : M FDMap :=
  match keys with
  | [] => mret fdm
  | appFD :: rest =>
      match fdMap !! appFD with
      | None => createFDMap_range ctx l console mounter fdMap rest ttyFile fdm
      | Some hostFD =>
          '(appFile, ttyFile) ←
            (if console && (appFD <? 3)%Z then
               match ttyFile with
               | None =>
                   appFile ← ImportFile ctx hostFD mounter true;
                   mret (appFile, Some appFile)
               | Some tty => mret (tty, ttyFile)
               end
             else
               appFile ← ImportFile ctx hostFD mounter false;
               mret (appFile, ttyFile));
          fdm ← lift (NewFDAt env fdm appFD appFile {| CloseOnExec := false |} l);
          createFDMap_range ctx l console mounter fdMap rest ttyFile fdm
      end
  end.

Definition createFDMap (ctx : Context) (l : LimitSet) (console : bool)
    (stdioFDs : list Z) : M FDMap :=
  match stdioFDs with
  | [fd0; fd1; fd2] =>
      let fdm : FDMap := ∅ in
      let mounter := FileOwnerFromContext ctx in
      let fdMap : gmap Z Z := <[0%Z := fd0]> (<[1%Z := fd1]> (<[2%Z := fd2]> ∅)) in
      createFDMap_range ctx l console mounter fdMap (rangeOrder env) None fdm
  | _ =>
      lift (Err (Msg ("stdioFDs should contain exactly 3 FDs (stdin, stdout, and stderr), but "
                        +:+ pretty (List.length stdioFDs) +:+ " FDs received")))
  end.

(** *** [createMemoryFile] (lines 354-367) *)

Definition createMemoryFile : result unit :=
  wrap "error creating memfd" (outcome (createMemFDFails env) ());;
  wrap "error creating pgalloc.MemoryFile"
    (outcome (newMemoryFileFails env) ()).

(** *** [Run] (lines 43-182) *)

Record Opt := {
  HostNet : bool;
  TTY : bool;
  Mounts : string;
  Args : list string
}.

(** Lines 44-116: platform, kernel, memory file, clocks, network stack,
    credentials, limits.  [k := &kernel.Kernel{...}] is a fresh kernel. *)
Definition Run_boot (o : Opt) : M (Credentials * LimitSet) :=
  lift (wrap "error setting up memory usage"
          (outcome (usageInitFails env) ()));;
  lift (outcome (newPlatformFails env) ());;
  modifyKernel (λ _, newKernel);;
  lift (wrap "creating memory file" createMemoryFile);;
  lift (wrap "error creating vdso" (outcome (prepareVDSOFails env) ()));;
  lift (wrap "error creating timekeeper"
          (outcome (newTimekeeperFails env) ()));;
  isHostinet ← lift (netStack env (HostNet o));
  (if isHostinet : bool then lift (outcome (configureFails env) ())
   else mret ());;
  let creds := {| KUID := 0; KGID := 0 |} in
  lift (wrap "error initializing kernel"
          (outcome (kernelInitFails env) ()));;
  ls ← lift (NewLinuxLimitSet env);
  mret (creds, ls).

(** Lines 150-158: the root mount namespace is built only when the kernel
    has none. *)
Definition Run_mounts (o : Opt) (ctx rootCtx : Context) : M unit :=
  mns ← RootMountNamespace;
  match mns with
  | None =>
      let followLinks := MaxSymlinkTraversals env in
      let '(created, followLinks) :=
        createMountNamespace ctx rootCtx
          (strings.Split (Mounts o) ","%char) followLinks in
      mns ← lift (wrap "error creating mounts" created);
      SetRootMountNamespace mns
  | Some _ => mret ()
  end.

(** Lines 118-181: process arguments, descriptors, namespace, init process,
    terminal, start. *)
Definition Run_main (o : Opt) (creds : Credentials) (ls : LimitSet)
  : M unit :=
  let procArgs :=
    {| Argv := Args o; WorkingDirectory := "/"; ArgsCredentials := creds;
       Umask := 18; ArgsMaxSymlinkTraversals := MaxSymlinkTraversals env;
       ArgsFDMap := None |} in
  let ctx := NewContext procArgs in
  fdm ← wrapM "error importing fds"
          (createFDMap ctx ls (TTY o) [0; 1; 2]%Z);
  let procArgs :=
    {| Argv := Argv procArgs; WorkingDirectory := WorkingDirectory procArgs;
       ArgsCredentials := ArgsCredentials procArgs; Umask := Umask procArgs;
       ArgsMaxSymlinkTraversals := ArgsMaxSymlinkTraversals procArgs;
       ArgsFDMap := Some fdm |} in
  let rootProcArgs :=
    {| Argv := []; WorkingDirectory := "/";
       ArgsCredentials := {| KUID := 0; KGID := 0 |};
       Umask := 18; ArgsMaxSymlinkTraversals := MaxSymlinkTraversals env;
       ArgsFDMap := None |} in
  let rootCtx := NewContext rootProcArgs in
  Run_mounts o ctx rootCtx;;
  wrapM "failed to create init process" (CreateProcess procArgs);;
  tg ← GlobalInit;
  (if TTY o then
     let ttyFile := GetFile (ArgsFDMap procArgs) 0 in
     InitForegroundProcessGroup ttyFile tg
   else mret ());;
  Start;;
  WaitExited;;
  mret ().

Definition Run (o : Opt) : M unit :=
  '(creds, ls) ← Run_boot o;
  Run_main o creds ls.

End Sbox.

(** ** Vocabulary of the statements *)

(** The map literal of [createFDMap] (lines 304-308). *)
Definition stdioMap (fd0 fd1 fd2 : Z) : gmap Z Z :=
  <[0%Z := fd0]> (<[1%Z := fd1]> (<[2%Z := fd2]> ∅)).

(** A valid host descriptor: [host.ImportFile] accepts it. *)
Definition importable (env : Env) (fd : Z) : Prop :=
  ∀ tty, importFails env fd tty = None.

(** The descriptor table accepts the three stdio slots. *)
Definition slotsFree (env : Env) (l : LimitSet) : Prop :=
  ∀ fd, (0 ≤ fd < 3)%Z → newFDFails env l fd = None.

(** The file object behind a handle was imported from host descriptor [fd]. *)
Definition importedFrom (w : World) (f : FileRef) (fd : Z) (tty : bool) : Prop :=
  ∃ file, files w !! f = Some file ∧ hostFD file = fd ∧ isTTY file = tty.

(** An environment in which every external call succeeds: host directories
    as given by [host], map iteration in the order [order], working
    directory [wd]. *)
Definition quietEnv (host : string → Tree) (order : list Z) (wd : string)
  : Env :=
  {| Getwd := Ok wd;
     hostTree := host;
     mountFails := λ _ _ _, None;
     directoryTreeFails := λ _, None;
     overlayFails := λ _ _, None;
     namespaceFails := λ _, None;
     attachFails := λ _ _, None;
     importFails := λ _ _, None;
     newFDFails := λ _ _, None;
     rangeOrder := order;
     MaxSymlinkTraversals := 40;
     createProcessFails := None;
     startFails := None;
     usageInitFails := None;
     newPlatformFails := None;
     createMemFDFails := None;
     newMemoryFileFails := None;
     prepareVDSOFails := None;
     newTimekeeperFails := None;
     netStack := λ _, Ok false;
     configureFails := None;
     kernelInitFails := None;
     NewLinuxLimitSet := Ok {| NumberOfFiles := 1024 |} |}.

Definition rootContext : Context :=
  {| ctxCredentials := {| KUID := 0; KGID := 0 |} |}.

Definition someLimits : LimitSet := {| NumberOfFiles := 1024 |}.

(** A host with nothing but empty directories. *)
Definition bareHost : string → Tree := λ _, emptyTree.

(** Every mount, tree and overlay call of root assembly succeeds. *)
Definition filesystemsCooperate (env : Env) : Prop :=
  (∀ f device data, mountFails env f device data = None)
  ∧ (∀ paths, directoryTreeFails env paths = None)
  ∧ (∀ upper lower, overlayFails env upper lower = None).

(** The layering the spec describes for [BuildRoot], to be compared with
    what [createRootMount] returns. *)
Definition rw : MountSourceFlags := {| ReadOnly := false |}.

(** The host directory mounted for the list entry [m]. *)
Definition hostPath (wd m : string) : string :=
  if filepath.IsAbs m then m else filepath.Join wd m.

Definition hostLayer (wd m : string) : Inode :=
  MountRoot whitelistfs "" rw ("root=" +:+ hostPath wd m).

(** "each subsequent tree[i] is layered as the upper tree over the
    accumulator" *)
Definition layerOver (wd : string) (accumulator : Inode) (m : string) : Inode :=
  OverlayRoot (hostLayer wd m) accumulator rw.

(** "tree[0] is the initial accumulator", folded left to right. *)
Definition hostStack (wd m0 : string) (rest : list string) : Inode :=
  fold_left (layerOver wd) rest (hostLayer wd m0).

Definition reservedTree : Inode := DirectoryTree submounts.

Definition tmpfsUpper : Inode := MountRoot tmpfsfs "upper" rw "".

(** The reserved subtree under the accumulator, the writable layer over
    both. *)
Definition assembled (accumulator : Inode) : Inode :=
  OverlayRoot tmpfsUpper (OverlayRoot accumulator reservedTree rw) rw.

(** The reserved mount points, as paths from the root. *)
Definition reservedDirs : list (list string) := map components submounts.

(** The layers of an inode, uppermost first. *)
Fixpoint layers (i : Inode) : list Inode :=
  match i with
  | OverlayRoot u l _ => layers u ++ layers l
  | _ => [i]
  end.

(** The flags of every mount and overlay an inode is made of. *)
Fixpoint allFlags (i : Inode) : list MountSourceFlags :=
  match i with
  | MountRoot _ _ flags _ => [flags]
  | DirectoryTree _ => []
  | OverlayRoot u l flags => flags :: allFlags u ++ allFlags l
  end.

Definition isHostLayer (i : Inode) : bool :=
  match i with
  | MountRoot whitelistfs _ _ _ => true
  | _ => false
  end.

(** The host of the spec's end-to-end example: [/a/x] holds "base",
    [/b/x] holds "override". *)
Definition exampleHost : string → Tree :=
  λ data p,
    if decide (p = []) then Some Directory
    else if decide (p = ["x"]) then
      if String.eqb data "root=/a" then Some (RegularFile "base")
      else if String.eqb data "root=/b" then Some (RegularFile "override")
      else None
    else None.

Definition exampleEnv : Env := quietEnv exampleHost [0; 1; 2]%Z "/work".

(** Resolution as the spec words it, without a budget: looking up the names
    [rest] from directory [cur] in tree [t] traverses exactly [n] symlinks
    and ends in [r], the entry reached or the error of a missing or
    non-directory component. *)
Inductive walks (t : Tree)
  : list string → list string → nat → result (list string) → Prop :=
  | walks_done cur :
      walks t cur [] 0 (Ok cur)
  | walks_absent cur c rest :
      t (cur ++ [c]) = None →
      walks t cur (c :: rest) 0 (Err (Sys ENOENT))
  | walks_directory cur c rest n r :
      t (cur ++ [c]) = Some Directory →
      walks t (cur ++ [c]) rest n r →
      walks t cur (c :: rest) n r
  | walks_file cur c content :
      t (cur ++ [c]) = Some (RegularFile content) →
      walks t cur [c] 0 (Ok (cur ++ [c]))
  | walks_not_directory cur c content c' rest :
      t (cur ++ [c]) = Some (RegularFile content) →
      walks t cur (c :: c' :: rest) 0 (Err (Sys ENOTDIR))
  | walks_symlink cur c rest target n r :
      t (cur ++ [c]) = Some (Symlink target) →
      walks t (if filepath.IsAbs target then [] else cur)
            (components target ++ rest) n r →
      walks t cur (c :: rest) (S n) r.

(** The namespace calls around the lookup succeed. *)
Definition namespaceCooperates (env : Env) : Prop :=
  (∀ root, namespaceFails env root = None)
  ∧ (∀ dirent inode, attachFails env dirent inode = None).

Definition procInode : Inode := MountRoot procfs "none" rw "".

(** The name of the [k]-th hop of a chain of symlinks: "proc", then "l",
    "ll", ... *)
Fixpoint hopName (k : nat) : string :=
  match k with
  | 0 => "proc"
  | 1 => "l"
  | S k' => String "l"%char (hopName k')
  end.

(** A host directory in which [proc] starts a chain of [n] symlinks that
    ends in a directory: hop [k] links to hop [k+1] for [k < n], hop [n] is
    the directory. *)
Definition chainHost (n : nat) : string → Tree :=
  λ _ p,
    match p with
    | [] => Some Directory
    | [c] =>
        match find (λ k, String.eqb c (hopName k)) (seq 0 (S n)) with
        | Some k => if (k <? n)%nat then Some (Symlink (hopName (S k)))
                    else Some Directory
        | None => None
        end
    | _ => None
    end.

Definition chainEnv (n : nat) : Env := quietEnv (chainHost n) [0; 1; 2]%Z "/work".

(** A host directory whose [proc] is a symlink to a name that does not
    exist. *)
Definition danglingHost : string → Tree :=
  λ _ p,
    if decide (p = []) then Some Directory
    else if decide (p = ["proc"]) then Some (Symlink "missing")
    else None.

Definition danglingEnv : Env := quietEnv danglingHost [0; 1; 2]%Z "/work".

Definition exampleOpt : Opt :=
  {| HostNet := false; TTY := true; Mounts := "/a,/b"; Args := ["/bin/sh"] |}.


Definition isSetRoot (e : Event) : bool :=
  match e with
  | EvSetRootMountNamespace _ => true
  | _ => false
  end.

(** A computation that, whatever its outcome, logs nothing but
    [SetRootMountNamespace] calls, creates no process group and leaves a
    kernel without init process without one. *)
Definition prelude {A} (m : M A) : Prop :=
  ∀ w r w', m w = (r, w') →
    (∃ l, trace w' = trace w ++ l ∧ Forall (λ e, isSetRoot e = true) l)
    ∧ nextProcessGroup w' = nextProcessGroup w
    ∧ (kGlobalInit (kernel w) = None → kGlobalInit (kernel w') = None).

(** ** Vocabulary of the further properties *)

(** The world after [host.ImportFile] has imported host descriptor [fd]. *)
Definition imported (w : World) (fd : Z) (mounter : FileOwner) (tty : bool)
  : World :=
  {| files := <[nextFile w := {| hostFD := fd; isTTY := tty;
                                 fileOwner := mounter;
                                 fgProcessGroup := None |}]> (files w);
     nextFile := S (nextFile w);
     nextProcessGroup := nextProcessGroup w;
     kernel := kernel w; trace := trace w |}.

(** Lines 312-342 of [createFDMap]: the file for one descriptor, and the
    value of [ttyFile] after it. *)
Definition createFDMap_file (env : Env) (ctx : Context) (console : bool)
    (mounter : FileOwner) (appFD hostFD : Z) (ttyFile : option FileRef)
  : M (FileRef * option FileRef) :=
  if console && (appFD <? 3)%Z then
    match ttyFile with
    | None =>
        appFile ← ImportFile env ctx hostFD mounter true;
        mret (appFile, Some appFile)
    | Some tty => mret (tty, ttyFile)
    end
  else
    appFile ← ImportFile env ctx hostFD mounter false;
    mret (appFile, ttyFile).

(** A computation that only ever adds file objects: kernel, log and process
    groups stay as they are, and so does every file object that existed. *)
Definition addsFilesOnly {A} (m : M A) : Prop :=
  ∀ w r w', m w = (r, w') →
    kernel w' = kernel w ∧ trace w' = trace w
    ∧ nextProcessGroup w' = nextProcessGroup w
    ∧ (nextFile w ≤ nextFile w')%nat
    ∧ ∀ h, (h < nextFile w)%nat → files w' !! h = files w !! h.

(** Every descriptor of the table holds a file object that exists, with the
    zero flags. *)
Definition tableSound (w : World) (fdm : FDMap) : Prop :=
  ∀ fd f flags, fdm !! fd = Some (f, flags) →
    is_Some (files w !! f) ∧ flags = {| CloseOnExec := false |}.

(** An environment like [quietEnv] in which mounts, imports and table
    insertions fail as the three oracles say. *)
Definition faultyEnv (host : string → Tree) (order : list Z) (wd : string)
    (mountF : Filesystem → string → string → option Errno)
    (importF : Z → bool → option Errno) (fdF : Z → option Errno) : Env :=
  {| Getwd := Ok wd;
     hostTree := host;
     mountFails := mountF;
     directoryTreeFails := λ _, None;
     overlayFails := λ _ _, None;
     namespaceFails := λ _, None;
     attachFails := λ _ _, None;
     importFails := importF;
     newFDFails := λ _, fdF;
     rangeOrder := order;
     MaxSymlinkTraversals := 40;
     createProcessFails := None;
     startFails := None;
     usageInitFails := None;
     newPlatformFails := None;
     createMemFDFails := None;
     newMemoryFileFails := None;
     prepareVDSOFails := None;
     newTimekeeperFails := None;
     netStack := λ _, Ok false;
     configureFails := None;
     kernelInitFails := None;
     NewLinuxLimitSet := Ok {| NumberOfFiles := 1024 |} |}.

(** Only host descriptor 0 can be imported. *)
Definition onlyStdinEnv (order : list Z) : Env :=
  faultyEnv bareHost order "/work" (λ _ _ _, None)
    (λ fd _, if decide (fd = 0%Z) then None else Some EBADF) (λ _, None).

(** The world after one terminal-mode import into a fresh world. *)
Definition importedOnce : World :=
  (createFDMap exampleEnv rootContext someLimits true [0; 1; 2]%Z newWorld).2.

(** The whitelist mount of the directory [bad] fails with [EIO]; every
    other call succeeds. *)
Definition brokenMountEnv (bad : string) : Env :=
  faultyEnv exampleHost [0; 1; 2]%Z "/work"
    (λ f _ data, match f with
                 | whitelistfs =>
                     if String.eqb data ("root=" +:+ bad) then Some EIO else None
                 | _ => None
                 end)
    (λ _ _, None) (λ _, None).

(** Whether character [c] occurs in [s]. *)
Fixpoint occurs (c : ascii) (s : string) : bool :=
  match s with
  | EmptyString => false
  | String c' rest => Ascii.eqb c' c || occurs c rest
  end.

(** The world after [k.SetRootMountNamespace(mns)]. *)
Definition withNamespace (w : World) (mns : MountNamespace) : World :=
  {| files := files w; nextFile := nextFile w;
     nextProcessGroup := nextProcessGroup w;
     kernel := {| kMounts := Some mns;
                  kGlobalInit := kGlobalInit (kernel w);
                  kStarted := kStarted (kernel w) |};
     trace := trace w ++ [EvSetRootMountNamespace mns] |}.

(** How a run of [Run] in a fresh world can end: the outcome, the kernel and
    the log of kernel calls.  [tty] is the terminal option, [table] holds of
    the descriptor tables the importer can have returned. *)
Inductive RunEnd (tty : bool) (table : FDMap → Prop)
  : result unit → Kernel → list Event → Prop :=
  | end_early r :
      r ≠ Ok () →
      RunEnd tty table r newKernel []
  | end_mounted r mns :
      r ≠ Ok () →
      RunEnd tty table r
        {| kMounts := Some mns; kGlobalInit := None; kStarted := false |}
        [EvSetRootMountNamespace mns]
  | end_created r mns pg fdm :
      r ≠ Ok () → table fdm →
      RunEnd tty table r
        {| kMounts := Some mns;
           kGlobalInit := Some {| tgProcessGroup := pg |};
           kStarted := false |}
        [EvSetRootMountNamespace mns; EvCreateProcess pg (Some fdm)]
  | end_foreground r mns pg fdm f :
      r ≠ Ok () → table fdm → tty = true →
      GetFile (Some fdm) 0 = Some f →
      RunEnd tty table r
        {| kMounts := Some mns;
           kGlobalInit := Some {| tgProcessGroup := pg |};
           kStarted := false |}
        [EvSetRootMountNamespace mns; EvCreateProcess pg (Some fdm);
         EvInitForegroundProcessGroup f pg]
  | end_ran mns pg fdm :
      table fdm → tty = false →
      RunEnd tty table (Ok ())
        {| kMounts := Some mns;
           kGlobalInit := Some {| tgProcessGroup := pg |};
           kStarted := true |}
        [EvSetRootMountNamespace mns; EvCreateProcess pg (Some fdm);
         EvStart; EvWaitExited]
  | end_ran_terminal mns pg fdm f :
      table fdm → tty = true →
      GetFile (Some fdm) 0 = Some f →
      RunEnd tty table (Ok ())
        {| kMounts := Some mns;
           kGlobalInit := Some {| tgProcessGroup := pg |};
           kStarted := true |}
        [EvSetRootMountNamespace mns; EvCreateProcess pg (Some fdm);
         EvInitForegroundProcessGroup f pg; EvStart; EvWaitExited].

(** The descriptor tables the importer can return to [Run]. *)
Definition importedTable (env : Env) (o : Opt) (fdm : FDMap) : Prop :=
  ∃ ls w, createFDMap env rootContext ls (TTY o) [0; 1; 2]%Z newWorld
          = (Ok fdm, w).

Definition isInitForeground (e : Event) : bool :=
  match e with
  | EvInitForegroundProcessGroup _ _ => true
  | _ => false
  end.

(** An environment like [quietEnv] in which the first set-up calls of [Run]
    fail as given. *)
Definition bootFaultEnv (usage platform memfd memfile : option Errno) : Env :=
  {| Getwd := Ok "/work";
     hostTree := exampleHost;
     mountFails := λ _ _ _, None;
     directoryTreeFails := λ _, None;
     overlayFails := λ _ _, None;
     namespaceFails := λ _, None;
     attachFails := λ _ _, None;
     importFails := λ _ _, None;
     newFDFails := λ _ _, None;
     rangeOrder := [0; 1; 2]%Z;
     MaxSymlinkTraversals := 40;
     createProcessFails := None;
     startFails := None;
     usageInitFails := usage;
     newPlatformFails := platform;
     createMemFDFails := memfd;
     newMemoryFileFails := memfile;
     prepareVDSOFails := None;
     newTimekeeperFails := None;
     netStack := λ _, Ok false;
     configureFails := None;
     kernelInitFails := None;
     NewLinuxLimitSet := Ok {| NumberOfFiles := 1024 |} |}.

(** * Properties *)

(** ** Go helpers on examples *)

Example Split_empty : strings.Split "" ","%char = [""].
Proof. reflexivity. Qed.

Example Split_two : strings.Split "/a,rel" ","%char = ["/a"; "rel"].
Proof. reflexivity. Qed.

Example Join_relative : filepath.Join "/home/u" "x/../y" = "/home/u/y".
Proof. reflexivity. Qed.

Example Join_empty : filepath.Join "/home/u" "" = "/home/u".
Proof. reflexivity. Qed.

Example components_proc : components "/proc" = ["proc"].
Proof. reflexivity. Qed.

(** ** The stdio importer *)

(** The only orders in which the three keys can be visited. *)
Lemma rangeOrder_cases (order : list Z) :
  order ≡ₚ [0; 1; 2]%Z →
  order = [0; 1; 2]%Z ∨ order = [0; 2; 1]%Z ∨ order = [1; 0; 2]%Z
  ∨ order = [1; 2; 0]%Z ∨ order = [2; 0; 1]%Z ∨ order = [2; 1; 0]%Z.
Proof.
  intros H.
  assert (Hl := Permutation_length H).
  destruct order as [|x [|y [|z [|]]]]; simpl in Hl; try lia.
  assert (Hnd : NoDup [x; y; z]) by (rewrite H; compute_done).
  assert (Hx : x ∈ [0; 1; 2]%Z) by (rewrite <- H; repeat constructor).
  assert (Hy : y ∈ [0; 1; 2]%Z) by (rewrite <- H; repeat constructor).
  assert (Hz : z ∈ [0; 1; 2]%Z) by (rewrite <- H; repeat constructor).
  apply list_elem_of_In in Hx, Hy, Hz. simpl in Hx, Hy, Hz.
  destruct Hx as [<-|[<-|[<-|[]]]]; destruct Hy as [<-|[<-|[<-|[]]]];
    destruct Hz as [<-|[<-|[<-|[]]]];
    first [ solve [repeat first [reflexivity | left; reflexivity | right]]
          | exfalso; revert Hnd; compute_done ].
Qed.

Lemma stdioMap_0 a b c : stdioMap a b c !! 0%Z = Some a.
Proof. reflexivity. Qed.
Lemma stdioMap_1 a b c : stdioMap a b c !! 1%Z = Some b.
Proof. reflexivity. Qed.
Lemma stdioMap_2 a b c : stdioMap a b c !! 2%Z = Some c.
Proof. reflexivity. Qed.

(** Runs the three iterations of the loop of [createFDMap] on the goal. *)
Ltac run_createFDMap Ha Hb Hc H0 H1 H2 :=
  cbn [createFDMap_range];
  rewrite stdioMap_0, stdioMap_1, stdioMap_2;
  cbn [andb Z.ltb Z.compare];
  unfold mbind, M_bind, mret, M_ret, ImportFile, lift, NewFDAt; cbn;
  rewrite ?Ha, ?Hb, ?Hc; cbn; rewrite ?H0, ?H1, ?H2; cbn.

(** C1. With terminal mode on and three valid host descriptors, slots 0, 1
    and 2 of the table hold one and the same file object; with terminal mode
    off they hold three pairwise distinct objects, each imported from the
    host descriptor of its own slot.  This holds for every order in which
    the map of descriptors is visited. *)
Theorem createFDMap_aliasing env ctx l a b c w :
  rangeOrder env ≡ₚ [0; 1; 2]%Z →
  importable env a → importable env b → importable env c →
  slotsFree env l →
  (∃ fdm w' f,
      createFDMap env ctx l true [a; b; c] w = (Ok fdm, w')
      ∧ GetFile (Some fdm) 0 = Some f
      ∧ GetFile (Some fdm) 1 = Some f
      ∧ GetFile (Some fdm) 2 = Some f
      ∧ is_Some (files w' !! f))
  ∧ (∃ fdm w' f0 f1 f2,
      createFDMap env ctx l false [a; b; c] w = (Ok fdm, w')
      ∧ GetFile (Some fdm) 0 = Some f0
      ∧ GetFile (Some fdm) 1 = Some f1
      ∧ GetFile (Some fdm) 2 = Some f2
      ∧ f0 ≠ f1 ∧ f0 ≠ f2 ∧ f1 ≠ f2
      ∧ importedFrom w' f0 a false
      ∧ importedFrom w' f1 b false
      ∧ importedFrom w' f2 c false).
Proof.
  intros Hp Ha Hb Hc Hs.
  assert (H0 := Hs 0%Z ltac:(lia)).
  assert (H1 := Hs 1%Z ltac:(lia)).
  assert (H2 := Hs 2%Z ltac:(lia)).
  unfold createFDMap. fold (stdioMap a b c).
  split.
  - destruct (rangeOrder_cases _ Hp) as [->|[->|[->|[->|[->| ->]]]]];
      run_createFDMap Ha Hb Hc H0 H1 H2;
      eexists _, _, (nextFile w);
      (split; [reflexivity|]); cbn;
      rewrite lookup_insert_eq; repeat split; eauto.
  - unfold importedFrom.
    destruct (rangeOrder_cases _ Hp) as [->|[->|[->|[->|[->| ->]]]]];
      run_createFDMap Ha Hb Hc H0 H1 H2;
      eexists _, _, _, _, _;
      (split; [reflexivity|]); cbn; repeat split;
      first [ cbn; lia
            | eexists; cbn;
              (split; [ rewrite ?(lookup_insert_ne (M:=gmap nat)) by lia;
                        apply lookup_insert_eq
                      | split; reflexivity ]) ].
Qed.

Lemma createFDMap_aliasing_witness :
  let env := quietEnv bareHost [0; 1; 2]%Z "/work" in
  (∃ fdm w' f,
      createFDMap env rootContext someLimits true [0; 1; 2]%Z newWorld = (Ok fdm, w')
      ∧ GetFile (Some fdm) 0 = Some f
      ∧ GetFile (Some fdm) 1 = Some f
      ∧ GetFile (Some fdm) 2 = Some f
      ∧ is_Some (files w' !! f))
  ∧ (∃ fdm w' f0 f1 f2,
      createFDMap env rootContext someLimits false [0; 1; 2]%Z newWorld = (Ok fdm, w')
      ∧ GetFile (Some fdm) 0 = Some f0
      ∧ GetFile (Some fdm) 1 = Some f1
      ∧ GetFile (Some fdm) 2 = Some f2
      ∧ f0 ≠ f1 ∧ f0 ≠ f2 ∧ f1 ≠ f2
      ∧ importedFrom w' f0 0 false
      ∧ importedFrom w' f1 1 false
      ∧ importedFrom w' f2 2 false).
Proof.
  intros env.
  apply (createFDMap_aliasing env rootContext someLimits 0 1 2 newWorld).
  - reflexivity.
  - intros tty. reflexivity.
  - intros tty. reflexivity.
  - intros tty. reflexivity.
  - intros fd Hfd. reflexivity.
Defined.

(** C2, as the code has it.  With terminal mode on, exactly one file object
    is imported, as a TTY, from the host descriptor of whichever slot the
    iteration over the descriptor map visits first; all three slots are
    bound to that object and no other host descriptor is imported. *)
Theorem createFDMap_terminal_import env ctx l a b c w :
  rangeOrder env ≡ₚ [0; 1; 2]%Z →
  importable env a → importable env b → importable env c →
  slotsFree env l →
  ∃ first rest fd fdm w',
    rangeOrder env = first :: rest
    ∧ stdioMap a b c !! first = Some fd
    ∧ createFDMap env ctx l true [a; b; c] w = (Ok fdm, w')
    ∧ GetFile (Some fdm) 0 = Some (nextFile w)
    ∧ GetFile (Some fdm) 1 = Some (nextFile w)
    ∧ GetFile (Some fdm) 2 = Some (nextFile w)
    ∧ files w' = <[nextFile w := {| hostFD := fd; isTTY := true;
                                    fileOwner := FileOwnerFromContext ctx;
                                    fgProcessGroup := None |}]> (files w)
    ∧ nextFile w' = S (nextFile w).
Proof.
  intros Hp Ha Hb Hc Hs.
  assert (H0 := Hs 0%Z ltac:(lia)).
  assert (H1 := Hs 1%Z ltac:(lia)).
  assert (H2 := Hs 2%Z ltac:(lia)).
  unfold createFDMap. fold (stdioMap a b c).
  destruct (rangeOrder_cases _ Hp) as [->|[->|[->|[->|[->| ->]]]]];
    eexists _, _, _, _, _;
    (split; [reflexivity|]);
    (split; [first [apply stdioMap_0 | apply stdioMap_1 | apply stdioMap_2]|]);
    run_createFDMap Ha Hb Hc H0 H1 H2;
    (split; [reflexivity|]); cbn; repeat split.
Qed.

Lemma createFDMap_terminal_import_witness :
  let env := quietEnv bareHost [2; 0; 1]%Z "/work" in
  ∃ first rest fd fdm w',
    rangeOrder env = first :: rest
    ∧ stdioMap 10 11 12 !! first = Some fd
    ∧ createFDMap env rootContext someLimits true [10; 11; 12]%Z newWorld = (Ok fdm, w')
    ∧ GetFile (Some fdm) 0 = Some (nextFile newWorld)
    ∧ GetFile (Some fdm) 1 = Some (nextFile newWorld)
    ∧ GetFile (Some fdm) 2 = Some (nextFile newWorld)
    ∧ files w' = <[nextFile newWorld := {| hostFD := fd; isTTY := true;
                                    fileOwner := FileOwnerFromContext rootContext;
                                    fgProcessGroup := None |}]> (files newWorld)
    ∧ nextFile w' = S (nextFile newWorld).
Proof.
  intros env.
  apply (createFDMap_terminal_import env rootContext someLimits 10 11 12 newWorld).
  - vm_compute. apply (Permutation_cons_append [0; 1]%Z 2%Z).
  - intros tty. reflexivity.
  - intros tty. reflexivity.
  - intros tty. reflexivity.
  - intros fd Hfd. reflexivity.
Defined.

(** C2 fails as stated: when the map of descriptors is visited in the order
    1, 0, 2, the shared terminal object is imported from the host descriptor
    given for slot 1, not from the one given for slot 0. *)
Lemma createFDMap_terminal_not_from_stdin :
  let env := quietEnv bareHost [1; 0; 2]%Z "/work" in
  ∃ fdm w' f,
    createFDMap env rootContext someLimits true [10; 11; 12]%Z newWorld = (Ok fdm, w')
    ∧ GetFile (Some fdm) 0 = Some f
    ∧ GetFile (Some fdm) 1 = Some f
    ∧ GetFile (Some fdm) 2 = Some f
    ∧ importedFrom w' f 11 true
    ∧ ¬ importedFrom w' f 10 true.
Proof.
  intros env. eexists _, _, 0. split; [vm_compute; reflexivity|].
  repeat split.
  - eexists. repeat split.
  - intros (file & Hf & Hfd & _). vm_compute in Hf.
    injection Hf as <-. discriminate Hfd.
Qed.

(** ** Root assembly *)

Section Assembly.
Context (env : Env) (ctx : Context).

Lemma wrap_outcome {A} prefix (a : A) : wrap prefix (outcome None a) = Ok a.
Proof. reflexivity. Qed.

(** The loop once it is past its first entry. *)
Lemma createRootMount_range_next wd (ms : list string) i acc :
  filesystemsCooperate env → i ≠ 0 →
  createRootMount_range env ctx whitelistfs rw wd i ms (Some acc) (Some acc)
  = Ok (Some (fold_left (layerOver wd) ms acc)).
Proof.
  intros (Hm & Hd & Ho). revert i acc.
  induction ms as [|m ms IH]; intros i acc Hi; [reflexivity|].
  cbn [createRootMount_range fold_left].
  unfold Mount. rewrite Hm, wrap_outcome. cbn [mbind result_mbind result_bind].
  destruct (Nat.eqb_spec i 0) as [|_]; [done|]. cbn [negb].
  unfold NewOverlayRoot. rewrite Ho, wrap_outcome.
  cbn [mbind result_mbind result_bind].
  rewrite IH by lia. unfold layerOver, hostLayer, hostPath.
  by destruct (filepath.IsAbs m).
Qed.

(** The loop from its start on a non-empty list: the first tree is the
    accumulator, each later tree goes on top. *)
Lemma createRootMount_range_stack wd m0 rest :
  filesystemsCooperate env →
  createRootMount_range env ctx whitelistfs rw wd 0 (m0 :: rest) None None
  = Ok (Some (hostStack wd m0 rest)).
Proof.
  intros Hc. pose proof Hc as (Hm & Hd & Ho).
  cbn [createRootMount_range].
  unfold Mount. rewrite Hm, wrap_outcome. cbn [mbind result_mbind result_bind Nat.eqb negb].
  rewrite createRootMount_range_next by done.
  unfold hostStack, hostLayer, hostPath. by destruct (filepath.IsAbs m0).
Qed.

(** On an empty list the loop leaves [rootInode] nil. *)
Lemma createRootMount_range_nil host mf wd :
  createRootMount_range env ctx host mf wd 0 [] None None = Ok None.
Proof. reflexivity. Qed.

(** What [createRootMount] returns on a non-empty list. *)
Lemma createRootMount_assembled wd m0 rest :
  Getwd env = Ok wd → filesystemsCooperate env →
  createRootMount env ctx (m0 :: rest) = Ok (assembled (hostStack wd m0 rest)).
Proof.
  intros Hwd Hc. pose proof Hc as (Hm & Hd & Ho).
  unfold createRootMount. rewrite Hwd. cbn [mbind result_mbind result_bind].
  change (FindFilesystem "whitelistfs") with (Some whitelistfs).
  change (FindFilesystem "tmpfs") with (Some tmpfsfs). cbv iota.
  change {| ReadOnly := false |} with rw.
  rewrite createRootMount_range_stack by done. cbn [result_bind].
  unfold addSubmountOverlay, MakeDirectoryTree, NewOverlayRoot, Mount.
  rewrite Hd, wrap_outcome. cbn [mbind result_mbind result_bind].
  rewrite Ho, wrap_outcome. cbn [mbind result_mbind result_bind wrap].
  rewrite Hm, wrap_outcome. cbn [mbind result_mbind result_bind].
  rewrite Ho, wrap_outcome. reflexivity.
Qed.

Lemma outcome_Ok {A} failure (a b : A) :
  outcome failure a = Ok b → failure = None ∧ b = a.
Proof. destruct failure; [discriminate|]. by intros [= ->]. Qed.

Lemma wrap_Ok {A} prefix (r : result A) a : wrap prefix r = Ok a → r = Ok a.
Proof. by destruct r. Qed.

Lemma bind_Ok {A B} (r : result A) (k : A → result B) b :
  r ≫= k = Ok b → ∃ a, r = Ok a ∧ k a = Ok b.
Proof. destruct r as [a| |]; [|discriminate..]. intros H. by exists a. Qed.

Lemma createRootMount_range_next_inv wd (ms : list string) i acc x :
  i ≠ 0 →
  createRootMount_range env ctx whitelistfs rw wd i ms (Some acc) (Some acc)
  = Ok x →
  x = Some (fold_left (layerOver wd) ms acc).
Proof.
  revert i acc. induction ms as [|m ms IH]; intros i acc Hi Hrun.
  - by injection Hrun as <-.
  - cbn [createRootMount_range fold_left] in Hrun.
    unfold Mount, NewOverlayRoot in Hrun.
    apply bind_Ok in Hrun as (r1 & H1 & Hrun).
    apply wrap_Ok, outcome_Ok in H1; destruct H1 as [_ ->].
    apply bind_Ok in Hrun as (r2 & H2 & Hrun).
    destruct i as [|i']; [done|]. cbn [Nat.eqb negb] in H2.
    apply wrap_Ok, outcome_Ok in H2; destruct H2 as [_ ->].
    apply IH in Hrun; [|lia]. subst x. cbn [fold_left].
    unfold layerOver, hostLayer, hostPath.
    destruct (filepath.IsAbs m); reflexivity.
Qed.

Lemma createRootMount_inv (mounts : list string) root :
  createRootMount env ctx mounts = Ok root →
  ∃ wd m0 rest,
    Getwd env = Ok wd ∧ mounts = m0 :: rest
    ∧ root = assembled (hostStack wd m0 rest).
Proof.
  unfold createRootMount. intros Hrun.
  unfold Mount in Hrun.
  apply bind_Ok in Hrun as (wd & Hwd & Hrun).
  change (FindFilesystem "whitelistfs") with (Some whitelistfs) in Hrun.
  change (FindFilesystem "tmpfs") with (Some tmpfsfs) in Hrun. cbv iota in Hrun.
  change {| ReadOnly := false |} with rw in Hrun.
  apply bind_Ok in Hrun as (acc & Hacc & Hrun).
  apply bind_Ok in Hrun as (lower & Hlower & Hrun).
  apply bind_Ok in Hrun as (upper & Hupper & Hrun).
  apply bind_Ok in Hrun as (r & Hr & Hrun). injection Hrun as <-.
  unfold NewOverlayRoot in Hr.
  apply wrap_Ok, outcome_Ok in Hupper; destruct Hupper as [_ ->].
  apply wrap_Ok, outcome_Ok in Hr; destruct Hr as [_ ->].
  apply wrap_Ok in Hlower.
  unfold addSubmountOverlay, MakeDirectoryTree in Hlower.
  apply bind_Ok in Hlower as (tree & Htree & Hlower).
  apply wrap_Ok, outcome_Ok in Htree; destruct Htree as [_ ->].
  apply bind_Ok in Hlower as (ov & Hov & Hlower). injection Hlower as <-.
  apply wrap_Ok in Hov. unfold NewOverlayRoot in Hov.
  destruct acc as [acc|]; [|discriminate].
  apply outcome_Ok in Hov as [_ ->].
  destruct mounts as [|m0 rest]; [discriminate|].
  exists wd, m0, rest. split; [done|]. split; [done|].
  cbn [createRootMount_range] in Hacc. unfold Mount in Hacc.
  apply bind_Ok in Hacc as (r1 & H1 & Hacc).
  apply wrap_Ok, outcome_Ok in H1; destruct H1 as [_ ->].
  cbn [Nat.eqb negb mbind result_mbind result_bind] in Hacc.
  apply createRootMount_range_next_inv in Hacc; [|done].
  injection Hacc as ->. unfold hostStack, hostLayer, hostPath.
  destruct (filepath.IsAbs m0); reflexivity.
Qed.

(** The root [createRootMount] returns, whenever it returns one. *)
Lemma createRootMount_Ok_assembled wd m0 (rest : list string) root :
  Getwd env = Ok wd →
  createRootMount env ctx (m0 :: rest) = Ok root →
  root = assembled (hostStack wd m0 rest).
Proof.
  intros Hwd Hroot.
  apply createRootMount_inv in Hroot
    as (wd' & m0' & rest' & Hwd' & [= <- <-] & ->).
  rewrite Hwd in Hwd'. by injection Hwd' as <-.
Qed.

End Assembly.

(** ** What the assembled root shows *)

Section Views.
Context (s : Store) (wd : string).

Lemma view_hostLayer m : view s (hostLayer wd m) = s (hostLayer wd m).
Proof. reflexivity. Qed.





(** Through the assembled root: the writable layer first, then the
    accumulator, then the reserved subtree. *)
Lemma view_assembled acc p :
  view s (assembled acc) p
  = match s tmpfsUpper p with
    | Some e => Some e
    | None => match view s acc p with
              | Some e => Some e
              | None => s reservedTree p
              end
    end.
Proof. reflexivity. Qed.

End Views.

(** The synthetic subtree holds the root and the four reserved directories,
    all of them directories, and nothing else; so each reserved directory is
    empty. *)
Lemma directoryTree_submounts p :
  directoryTree submounts p
  = if bool_decide (p = [] ∨ p ∈ reservedDirs) then Some Directory else None.
Proof.
  destruct p as [|c [|d p]]; [reflexivity| |].
  - cbn [directoryTree]. unfold submounts, reservedDirs.
    change (map components _) with [["dev"]; ["sys"]; ["proc"]; ["tmp"]].
    cbn [existsb]. change (components "/dev") with ["dev"].
    change (components "/sys") with ["sys"].
    change (components "/proc") with ["proc"].
    change (components "/tmp") with ["tmp"].
    cbn [isPrefix]. rewrite !andb_true_r.
    destruct (String.eqb_spec c "dev") as [->|H1]; [reflexivity|].
    destruct (String.eqb_spec c "sys") as [->|H2]; [reflexivity|].
    destruct (String.eqb_spec c "proc") as [->|H3]; [reflexivity|].
    destruct (String.eqb_spec c "tmp") as [->|H4]; [reflexivity|].
    cbn. rewrite bool_decide_eq_false_2; [reflexivity|].
    intros [Hnil|Hin]; [discriminate|].
    apply list_elem_of_In in Hin. cbn in Hin.
    destruct Hin as [H|[H|[H|[H|[]]]]]; congruence.
  - cbn [directoryTree]. unfold submounts.
    cbn [existsb]. change (components "/dev") with ["dev"].
    change (components "/sys") with ["sys"].
    change (components "/proc") with ["proc"].
    change (components "/tmp") with ["tmp"].
    cbn [isPrefix]. rewrite !andb_false_r. cbn [orb].
    rewrite bool_decide_eq_false_2; [reflexivity|].
    intros [Hnil|Hin]; [discriminate|].
    apply list_elem_of_In in Hin. cbn in Hin.
    destruct Hin as [H|[H|[H|[H|[]]]]]; discriminate.
Qed.

Lemma reservedDirs_nonempty p : p ∈ reservedDirs → p ≠ [].
Proof.
  intros Hin ->. apply list_elem_of_In in Hin. cbn in Hin.
  destruct Hin as [H|[H|[H|[H|[]]]]]; discriminate.
Qed.

(** The layers of a stack of host trees, uppermost first. *)
Lemma layers_stack wd (ms : list string) acc :
  layers (fold_left (layerOver wd) ms acc)
  = rev (map (hostLayer wd) ms) ++ layers acc.
Proof.
  revert acc. induction ms as [|m ms IH]; intros acc; [reflexivity|].
  cbn [fold_left map rev]. rewrite IH. cbn [layerOver layers hostLayer].
  by rewrite <- app_assoc.
Qed.

Lemma filter_hostLayers wd (ms : list string) :
  filter isHostLayer (rev (map (hostLayer wd) ms)) = rev (map (hostLayer wd) ms).
Proof.
  assert (Hall : Forall (λ i, isHostLayer i = true) (rev (map (hostLayer wd) ms))).
  { apply Forall_forall. intros i Hi.
    apply list_elem_of_In, in_rev, in_map_iff in Hi as (m & <- & _).
    reflexivity. }
  induction Hall as [|i l Hi _ IH]; [reflexivity|].
  rewrite filter_cons, IH. rewrite Hi. reflexivity.
Qed.

(** A reserved path through the assembled root: the accumulator's entry if
    it has one, the empty directory of the reserved subtree otherwise. *)
Lemma view_assembled_reserved env acc p :
  p ∈ reservedDirs →
  view (initialStore env) (assembled acc) p
  = match view (initialStore env) acc p with
    | Some e => Some e
    | None => Some Directory
    end.
Proof.
  intros Hp. rewrite view_assembled.
  replace (initialStore env tmpfsUpper p) with (@None Entry)
    by (destruct p; [by apply reservedDirs_nonempty in Hp | reflexivity]).
  destruct (view (initialStore env) acc p); [reflexivity|].
  change (initialStore env reservedTree p) with (directoryTree submounts p).
  rewrite directoryTree_submounts, bool_decide_eq_true_2; [reflexivity|].
  by right.
Qed.

(** ** The claims on root assembly *)



(** C7. The synthetic subtree holds exactly the reserved directories, empty,
    and lies under the host accumulator; a reserved path shows the host's
    entry when the accumulator has one and an empty directory otherwise.
    Assembly succeeds when the external calls do. *)
Theorem createRootMount_reserved_dirs env ctx wd m0 (rest : list string) :
  Getwd env = Ok wd →
  (filesystemsCooperate env →
   ∃ root, createRootMount env ctx (m0 :: rest) = Ok root)
  ∧ ∀ root,
      createRootMount env ctx (m0 :: rest) = Ok root →
      ∃ accumulator,
        accumulator = hostStack wd m0 rest
        ∧ root = OverlayRoot tmpfsUpper
                   (OverlayRoot accumulator (DirectoryTree submounts) rw) rw
        ∧ (∀ p, view (initialStore env) (DirectoryTree submounts) p
                = if bool_decide (p = [] ∨ p ∈ reservedDirs)
                  then Some Directory else None)
        ∧ ∀ p, p ∈ reservedDirs →
            view (initialStore env) root p
            = match view (initialStore env) accumulator p with
              | Some e => Some e
              | None => Some Directory
              end.
Proof.
  intros Hwd. split.
  { intros Hc. eexists. by apply createRootMount_assembled. }
  intros root Hroot.
  apply (createRootMount_Ok_assembled env ctx wd) in Hroot as ->; [|done].
  eexists. split; [reflexivity|]. split; [reflexivity|].
  split; [intros p; apply directoryTree_submounts|].
  intros p Hp. by apply view_assembled_reserved.
Qed.

Lemma createRootMount_reserved_dirs_witness :
  ∃ root,
    createRootMount exampleEnv rootContext ["/a"; "/b"] = Ok root
    ∧ view (initialStore exampleEnv) root ["proc"] = Some Directory.
Proof.
  destruct (createRootMount_reserved_dirs exampleEnv rootContext
              "/work" "/a" ["/b"]) as [Hex Hprop]; [reflexivity|].
  destruct Hex as [root Hroot]; [split; [|split]; intros; reflexivity|].
  exists root. split; [exact Hroot|].
  destruct (Hprop root Hroot) as (acc & -> & _ & _ & Hres).
  rewrite (Hres ["proc"]); [reflexivity|].
  unfold reservedDirs. cbn. right. right. left.
Defined.

(** C10. Every entry of the mount list yields one whitelist mount with the
    read-only flag off; no mount or overlay of the assembled root is flagged
    read-only, and mutations made through the root go to the tmpfs layer.
    Assembly succeeds when the external calls do. *)
Theorem createRootMount_mounts_read_write env ctx wd m0 (rest : list string) :
  Getwd env = Ok wd →
  (filesystemsCooperate env →
   ∃ root, createRootMount env ctx (m0 :: rest) = Ok root)
  ∧ ∀ root,
      createRootMount env ctx (m0 :: rest) = Ok root →
      filter isHostLayer (layers root)
      = rev (map (λ m, MountRoot whitelistfs "" {| ReadOnly := false |}
                         ("root=" +:+ hostPath wd m)) (m0 :: rest))
      ∧ Forall (λ flags, ReadOnly flags = false) (allFlags root)
      ∧ writeLayer root = MountRoot tmpfsfs "upper" {| ReadOnly := false |} "".
Proof.
  intros Hwd. split.
  { intros Hc. eexists. by apply createRootMount_assembled. }
  intros root Hroot.
  apply (createRootMount_Ok_assembled env ctx wd) in Hroot as ->; [|done].
  assert (Hf : ∀ ms acc,
             Forall (λ flags, ReadOnly flags = false) (allFlags acc) →
             Forall (λ flags, ReadOnly flags = false)
                    (allFlags (fold_left (layerOver wd) ms acc))).
  { induction ms as [|m ms IH]; intros acc Hacc; [exact Hacc|].
    cbn [fold_left]. apply IH. cbn. by repeat constructor. }
  split; [|split].
  - change (λ m, MountRoot whitelistfs "" {| ReadOnly := false |}
                   ("root=" +:+ hostPath wd m)) with (hostLayer wd).
    cbn [assembled layers]. unfold hostStack.
    rewrite layers_stack, !filter_app, filter_hostLayers. cbn [map rev].
    change (filter isHostLayer (layers tmpfsUpper)) with (@nil Inode).
    change (filter isHostLayer (layers reservedTree)) with (@nil Inode).
    change (filter isHostLayer (layers (hostLayer wd m0)))
      with [hostLayer wd m0].
    by rewrite app_nil_l, app_nil_r.
  - cbn [assembled allFlags]. repeat constructor.
    apply Forall_app. split; [|constructor].
    apply Hf. by repeat constructor.
  - reflexivity.
Qed.

Lemma createRootMount_mounts_read_write_witness :
  ∃ root,
    createRootMount exampleEnv rootContext ["/a"; "rel"] = Ok root
    ∧ filter isHostLayer (layers root)
      = [MountRoot whitelistfs "" {| ReadOnly := false |} "root=/work/rel";
         MountRoot whitelistfs "" {| ReadOnly := false |} "root=/a"]
    ∧ Forall (λ flags, ReadOnly flags = false) (allFlags root)
    ∧ writeLayer root = MountRoot tmpfsfs "upper" {| ReadOnly := false |} "".
Proof.
  destruct (createRootMount_mounts_read_write exampleEnv rootContext
              "/work" "/a" ["rel"]) as [Hex Hprop]; [reflexivity|].
  destruct Hex as [root Hroot]; [split; [|split]; intros; reflexivity|].
  exists root. split; [exact Hroot|]. exact (Hprop root Hroot).
Defined.

(** C6. The tmpfs tree is the upper side of the outermost overlay, over the
    whole composition of host trees and reserved subtree; a mutation made
    through the assembled root changes the tmpfs layer and no other, in
    particular no host-backed tree, and a file written through the root is
    read back through it.  Assembly succeeds when the external calls do. *)
Theorem createRootMount_writes_land_in_tmpfs env ctx wd m0 (rest : list string) :
  Getwd env = Ok wd →
  (filesystemsCooperate env →
   ∃ root, createRootMount env ctx (m0 :: rest) = Ok root)
  ∧ ∀ root,
      createRootMount env ctx (m0 :: rest) = Ok root →
      ∃ lower,
        root = OverlayRoot tmpfsUpper lower rw
        ∧ (∀ m, m ∈ m0 :: rest → hostLayer wd m ∈ layers lower)
        ∧ reservedTree ∈ layers lower
        ∧ (∀ (f : Tree → Tree) (s : Store),
             mutate root f s tmpfsUpper = f (s tmpfsUpper)
             ∧ (∀ i, i ≠ tmpfsUpper → mutate root f s i = s i)
             ∧ (∀ m, mutate root f s (hostLayer wd m) = s (hostLayer wd m)))
        ∧ ∀ p content (s : Store),
            view (mutate root (writeFile p content) s) root p
            = Some (RegularFile content).
Proof.
  intros Hwd. split.
  { intros Hc. eexists. by apply createRootMount_assembled. }
  intros root Hroot.
  apply (createRootMount_Ok_assembled env ctx wd) in Hroot as ->; [|done].
  eexists. split; [reflexivity|].
  split; [|split; [|split]].
  - intros m Hm. cbn [layers]. unfold hostStack. rewrite layers_stack.
    apply elem_of_app. left. apply elem_of_app.
    apply elem_of_cons in Hm as [->|Hm].
    + right. cbn. left.
    + left. apply list_elem_of_In. apply -> in_rev. apply in_map.
      by apply list_elem_of_In.
  - cbn [layers]. apply elem_of_app. right. cbn. left.
  - intros f s. unfold mutate.
    change (writeLayer (assembled (hostStack wd m0 rest))) with tmpfsUpper.
    split; [by case_decide|].
    split; [intros i Hi; by case_decide|].
    intros m. by case_decide.
  - intros p content s. rewrite view_assembled. unfold mutate.
    change (writeLayer (assembled (hostStack wd m0 rest))) with tmpfsUpper.
    case_decide; [|done]. unfold writeFile. by case_decide.
Qed.

Lemma createRootMount_writes_land_in_tmpfs_witness :
  ∃ root,
    createRootMount exampleEnv rootContext ["/a"; "/b"] = Ok root
    ∧ (let s := mutate root (writeFile ["x"] "new") (initialStore exampleEnv) in
       view s root ["x"] = Some (RegularFile "new")
       ∧ s (hostLayer "/work" "/a") = initialStore exampleEnv (hostLayer "/work" "/a")
       ∧ s (hostLayer "/work" "/b") = initialStore exampleEnv (hostLayer "/work" "/b")).
Proof.
  destruct (createRootMount_writes_land_in_tmpfs exampleEnv rootContext
              "/work" "/a" ["/b"]) as [Hex Hprop]; [reflexivity|].
  destruct Hex as [root Hroot]; [split; [|split]; intros; reflexivity|].
  exists root. split; [exact Hroot|].
  destruct (Hprop root Hroot) as (lower & _ & _ & _ & Hframe & Hread).
  cbn zeta. split; [apply Hread|].
  split; apply (Hframe (writeFile ["x"] "new") (initialStore exampleEnv)).
Defined.

Lemma Split_nonempty s sep : strings.Split s sep ≠ [].
Proof.
  destruct s as [|c s]; cbn; [discriminate|].
  destruct (Ascii.eqb c sep); [discriminate|].
  destruct (strings.Split s sep); discriminate.
Qed.

(** C4, as the code has it.  [Run] never hands root assembly an empty list:
    the mount option is split at commas, which always yields at least one
    entry, and the empty option yields the single entry "".  For that list
    the accumulator is the host tree of the working directory, assembly goes
    on as for any list (and succeeds when the external calls do), and every
    reserved directory exists in the assembled root: the host's entry where
    the working directory has one, an empty directory otherwise. *)
Theorem createRootMount_empty_option env ctx wd :
  Getwd env = Ok wd →
  (∀ option, strings.Split option ","%char ≠ [])
  ∧ strings.Split "" ","%char = [""]
  ∧ (filesystemsCooperate env →
     ∃ root, createRootMount env ctx (strings.Split "" ","%char) = Ok root)
  ∧ ∀ root,
      createRootMount env ctx (strings.Split "" ","%char) = Ok root →
      root = assembled (MountRoot whitelistfs "" {| ReadOnly := false |}
                          ("root=" +:+ filepath.Join wd ""))
      ∧ ∀ p, p ∈ reservedDirs →
          view (initialStore env) root p
          = match hostTree env ("root=" +:+ filepath.Join wd "") p with
            | Some e => Some e
            | None => Some Directory
            end.
Proof.
  intros Hwd.
  split; [intros option; apply Split_nonempty|].
  split; [reflexivity|].
  change (strings.Split "" ","%char) with [""].
  split; [intros Hc; eexists; by apply createRootMount_assembled|].
  intros root Hroot.
  apply (createRootMount_Ok_assembled env ctx wd) in Hroot as ->; [|done].
  split; [reflexivity|].
  intros p Hp. unfold hostStack. cbn [fold_left].
  by rewrite view_assembled_reserved.
Qed.

Lemma createRootMount_empty_option_witness :
  ∃ root,
    createRootMount exampleEnv rootContext (strings.Split "" ","%char) = Ok root
    ∧ root = assembled (MountRoot whitelistfs "" {| ReadOnly := false |}
                          "root=/work")
    ∧ view (initialStore exampleEnv) root ["tmp"] = Some Directory.
Proof.
  destruct (createRootMount_empty_option exampleEnv rootContext "/work")
    as (_ & _ & Hex & Hprop); [reflexivity|].
  destruct Hex as [root Hroot]; [split; [|split]; intros; reflexivity|].
  exists root. split; [exact Hroot|].
  destruct (Hprop root Hroot) as [Hshape Hres].
  split; [exact Hshape|].
  rewrite (Hres ["tmp"]); [reflexivity|].
  unfold reservedDirs. cbn. right. right. right. left.
Defined.

(** C4 fails as stated: on an empty list the loop leaves the accumulator
    nil, not an empty tree; the nil inode goes to the overlay composer as
    its upper side, and no root is assembled. *)
Lemma createRootMount_empty_list_no_root :
  createRootMount_range exampleEnv rootContext whitelistfs rw "/work" 0 []
    None None = Ok None
  ∧ addSubmountOverlay exampleEnv rootContext None submounts
    = Panic "invalid memory address or nil pointer dereference"
  ∧ createRootMount exampleEnv rootContext []
    = Panic "invalid memory address or nil pointer dereference"
  ∧ ¬ ∃ root, createRootMount exampleEnv rootContext [] = Ok root.
Proof.
  split; [reflexivity|]. split; [reflexivity|]. split; [reflexivity|].
  intros (root & Hroot). vm_compute in Hroot. discriminate Hroot.
Qed.

(** ** Path resolution under a symlink budget *)

Lemma resolve_unfold t budget cur rest :
  resolve t budget cur rest
  = match rest with
    | [] => (Ok cur, budget)
    | c :: rest' =>
        match t (cur ++ [c]) with
        | None => (Err (Sys ENOENT), budget)
        | Some Directory => resolve t budget (cur ++ [c]) rest'
        | Some (RegularFile _) =>
            match rest' with
            | [] => (Ok (cur ++ [c]), budget)
            | _ => (Err (Sys ENOTDIR), budget)
            end
        | Some (Symlink target) =>
            match budget with
            | 0 => (Err (Sys ELOOP), 0)
            | S b =>
                resolve t b (if filepath.IsAbs target then [] else cur)
                        (components target ++ rest')
            end
        end
    end.
Proof. destruct budget; destruct rest; reflexivity. Qed.

(** A walk over [n] links is what [resolve] computes with any budget of at
    least [n], spending [n] of it; with less it stops at a link with
    nothing left. *)
Lemma resolve_walks t cur rest n r :
  walks t cur rest n r →
  ∀ budget : nat,
    ((n ≤ budget)%nat → resolve t budget cur rest = (r, budget - n))
    ∧ ((budget < n)%nat → resolve t budget cur rest = (Err (Sys ELOOP), 0)).
Proof.
  induction 1 as [cur|cur c rest Hc|cur c rest n r Hc _ IH|cur c content Hc
                 |cur c content c' rest Hc|cur c rest target n r Hc _ IH];
    intros budget; rewrite resolve_unfold; rewrite ?Hc.
  - split; [intros _; by rewrite Nat.sub_0_r | lia].
  - split; [intros _; by rewrite Nat.sub_0_r | lia].
  - apply IH.
  - split; [intros _; by rewrite Nat.sub_0_r | lia].
  - split; [intros _; by rewrite Nat.sub_0_r | lia].
  - destruct budget as [|b]; [split; [lia | done]|].
    destruct (IH b) as [Hle Hlt].
    split; intros Hb; [apply Hle | apply Hlt]; lia.
Qed.

(** ** Building the mount namespace *)

Section Namespace.
Context (env : Env) (userCtx rootCtx : Context).

(** Everything up to the lookup of the mount point, when the external calls
    succeed. *)
Lemma createMountNamespace_prepare_assembled wd m0 (rest : list string) :
  Getwd env = Ok wd → filesystemsCooperate env → namespaceCooperates env →
  createMountNamespace_prepare env userCtx rootCtx (m0 :: rest)
  = Ok ({| mnsRoot := assembled (hostStack wd m0 rest); mnsMounts := [] |},
        procInode).
Proof.
  intros Hwd Hc (Hn & _). pose proof Hc as (Hm & _ & _).
  unfold createMountNamespace_prepare.
  rewrite (createRootMount_assembled env rootCtx wd) by done.
  cbn [wrap mbind result_mbind result_bind].
  unfold NewMountNamespace. rewrite Hn, wrap_outcome.
  cbn [mbind result_mbind result_bind].
  change (FindFilesystem "proc") with (Some procfs). cbv iota.
  unfold Mount. rewrite Hm, wrap_outcome. reflexivity.
Qed.

(** [createMountNamespace] in terms of the lookup alone. *)
Lemma createMountNamespace_lookup wd m0 (rest : list string) budget :
  Getwd env = Ok wd → filesystemsCooperate env → namespaceCooperates env →
  createMountNamespace env userCtx rootCtx (m0 :: rest) budget
  = let root := assembled (hostStack wd m0 rest) in
    let '(found, remaining) :=
      resolve (view (initialStore env) root) budget [] (components "/proc") in
    (match found with
     | Ok dirent => Ok {| mnsRoot := root; mnsMounts := [(dirent, procInode)] |}
     | Err e => Err (Errorf "failed to find mount destination" e)
     | Panic msg => Panic msg
     end, remaining).
Proof.
  intros Hwd Hc Hn. unfold createMountNamespace.
  rewrite (createMountNamespace_prepare_assembled wd) by done.
  unfold FindInode. cbn [mnsRoot].
  change (filepath.IsAbs "/proc") with true. cbv iota zeta.
  destruct (resolve _ budget [] (components "/proc")) as [[d|e|msg] remaining];
    cbn [wrap mbind result_mbind result_bind]; [|reflexivity|reflexivity].
  unfold MountAt. destruct Hn as (_ & Ha). by rewrite Ha.
Qed.

End Namespace.

(** C8.  [Run] resolves the process-info mount point with a budget of
    [linux.MaxSymlinkTraversals].  If the walk from the root to [/proc]
    traverses [n] links, then with [n] within the budget (exactly the budget
    included) the destination is found and the namespace is built and set;
    with [n] above the budget (one more included) construction fails with
    SymlinkLimitExceeded; and a walk that meets an absent component fails
    with NotFound.  On either failure [Run] gets an error and the kernel is
    left without a namespace. *)
Theorem createMountNamespace_symlink_budget env o userCtx rootCtx w wd m0
    (rest : list string) n r :
  Getwd env = Ok wd → filesystemsCooperate env → namespaceCooperates env →
  strings.Split (Mounts o) ","%char = m0 :: rest →
  kMounts (kernel w) = None →
  let root := assembled (hostStack wd m0 rest) in
  let budget := MaxSymlinkTraversals env in
  walks (view (initialStore env) root) [] (components "/proc") n r →
  (∀ dirent, r = Ok dirent → (n ≤ budget)%nat →
     let mns := {| mnsRoot := root; mnsMounts := [(dirent, procInode)] |} in
     createMountNamespace env userCtx rootCtx (m0 :: rest) budget
     = (Ok mns, budget - n)
     ∧ ∃ w', Run_mounts env o userCtx rootCtx w = (Ok (), w')
             ∧ kMounts (kernel w') = Some mns)
  ∧ ((budget < n)%nat →
     createMountNamespace env userCtx rootCtx (m0 :: rest) budget
     = (Err (Errorf "failed to find mount destination" (Sys ELOOP)), 0)
     ∧ Run_mounts env o userCtx rootCtx w
       = (Err (Errorf "error creating mounts"
                 (Errorf "failed to find mount destination" (Sys ELOOP))), w))
  ∧ (r = Err (Sys ENOENT) → (n ≤ budget)%nat →
     createMountNamespace env userCtx rootCtx (m0 :: rest) budget
     = (Err (Errorf "failed to find mount destination" (Sys ENOENT)),
        budget - n)
     ∧ Run_mounts env o userCtx rootCtx w
       = (Err (Errorf "error creating mounts"
                 (Errorf "failed to find mount destination" (Sys ENOENT))), w)).
Proof.
  intros Hwd Hc Hn Hsplit Hk root budget Hwalk.
  pose proof (resolve_walks _ _ _ _ _ Hwalk budget) as [Hle Hlt].
  assert (Hrun : ∀ res,
            createMountNamespace env userCtx rootCtx (m0 :: rest) budget = res →
            Run_mounts env o userCtx rootCtx w
            = match res.1 with
              | Ok mns =>
                  (Ok (),
                   {| files := files w; nextFile := nextFile w;
                      nextProcessGroup := nextProcessGroup w;
                      kernel := {| kMounts := Some mns;
                                   kGlobalInit := kGlobalInit (kernel w);
                                   kStarted := kStarted (kernel w) |};
                      trace := trace w ++ [EvSetRootMountNamespace mns] |})
              | Err e => (Err (Errorf "error creating mounts" e), w)
              | Panic msg => (Panic msg, w)
              end).
  { intros res Hres. unfold Run_mounts, mbind, M_bind, RootMountNamespace.
    rewrite Hk, Hsplit. fold budget. rewrite Hres.
    by destruct res as [[mns|e|msg] remaining]. }
  assert (Hlookup := createMountNamespace_lookup env userCtx rootCtx wd m0
                       rest budget Hwd Hc Hn).
  cbv zeta in Hlookup. fold root in Hlookup.
  split; [|split].
  - intros dirent -> Hb. cbv zeta. rewrite (Hle Hb) in Hlookup.
    split; [exact Hlookup|].
    eexists. split; [by rewrite (Hrun _ Hlookup) | reflexivity].
  - intros Hb. rewrite (Hlt Hb) in Hlookup.
    split; [exact Hlookup|]. by rewrite (Hrun _ Hlookup).
  - intros -> Hb. rewrite (Hle Hb) in Hlookup.
    split; [exact Hlookup|]. by rewrite (Hrun _ Hlookup).
Qed.

(** Builds a walk through a concrete tree, link by link. *)
Ltac walk_chain :=
  first
    [ apply walks_done
    | eapply walks_absent; vm_compute; reflexivity
    | eapply walks_directory; [vm_compute; reflexivity | walk_chain]
    | eapply walks_symlink; [vm_compute; reflexivity | walk_chain] ].

Lemma createMountNamespace_symlink_budget_witness :
  createMountNamespace (chainEnv 40) rootContext rootContext ["/a"; "/b"] 40
  = (Ok {| mnsRoot := assembled (hostStack "/work" "/a" ["/b"]);
           mnsMounts := [([hopName 40], procInode)] |}, 0)
  ∧ Run_mounts (chainEnv 41) exampleOpt rootContext rootContext newWorld
    = (Err (Errorf "error creating mounts"
              (Errorf "failed to find mount destination" (Sys ELOOP))),
       newWorld)
  ∧ Run_mounts danglingEnv exampleOpt rootContext rootContext newWorld
    = (Err (Errorf "error creating mounts"
              (Errorf "failed to find mount destination" (Sys ENOENT))),
       newWorld).
Proof.
  split; [|split].
  - eapply (createMountNamespace_symlink_budget (chainEnv 40) exampleOpt
              rootContext rootContext newWorld "/work" "/a" ["/b"] 40
              (Ok [hopName 40])).
    + reflexivity.
    + split; [|split]; intros; reflexivity.
    + split; intros; reflexivity.
    + reflexivity.
    + reflexivity.
    + walk_chain.
    + reflexivity.
    + vm_compute. lia.
  - eapply (createMountNamespace_symlink_budget (chainEnv 41) exampleOpt
              rootContext rootContext newWorld "/work" "/a" ["/b"] 41
              (Ok [hopName 41])).
    + reflexivity.
    + split; [|split]; intros; reflexivity.
    + split; intros; reflexivity.
    + reflexivity.
    + reflexivity.
    + walk_chain.
    + vm_compute. lia.
  - eapply (createMountNamespace_symlink_budget danglingEnv exampleOpt
              rootContext rootContext newWorld "/work" "/a" ["/b"] 1
              (Err (Sys ENOENT))).
    + reflexivity.
    + split; [|split]; intros; reflexivity.
    + split; intros; reflexivity.
    + reflexivity.
    + reflexivity.
    + walk_chain.
    + reflexivity.
    + vm_compute. lia.
Defined.




(** ** The sequence of kernel calls made by [Run] *)

Section Prelude.
Context (env : Env).

Lemma prelude_ret {A} (a : A) : prelude (mret a).
Proof.
  intros w r w' [= <- <-]. split; [|done].
  exists []. by rewrite app_nil_r.
Qed.

Lemma prelude_lift {A} (r0 : result A) : prelude (lift r0).
Proof.
  intros w r w' [= <- <-]. split; [|done].
  exists []. by rewrite app_nil_r.
Qed.

Lemma prelude_bind {A B} (m : M A) (k : A → M B) :
  prelude m → (∀ a, prelude (k a)) → prelude (m ≫= k).
Proof.
  intros Hm Hk w r w' Hrun. unfold mbind, M_bind in Hrun.
  destruct (m w) as [[a|e|msg] w1] eqn:Hmw.
  - destruct (Hm _ _ _ Hmw) as ((l1 & Ht1 & Hl1) & Hp1 & Hg1).
    destruct (Hk a _ _ _ Hrun) as ((l2 & Ht2 & Hl2) & Hp2 & Hg2).
    split; [|split].
    + exists (l1 ++ l2). split.
      * by rewrite Ht2, Ht1, app_assoc.
      * by apply Forall_app.
    + congruence.
    + auto.
  - injection Hrun as <- <-. by apply (Hm _ _ _ Hmw).
  - injection Hrun as <- <-. by apply (Hm _ _ _ Hmw).
Qed.

Lemma prelude_wrapM {A} prefix (m : M A) : prelude m → prelude (wrapM prefix m).
Proof.
  intros Hm w r w' Hrun. unfold wrapM in Hrun.
  destruct (m w) as [r1 w1] eqn:Hmw. injection Hrun as <- <-.
  by apply (Hm _ _ _ Hmw).
Qed.

Lemma prelude_newKernel : prelude (modifyKernel (λ _, newKernel)).
Proof.
  intros w r w' [= <- <-]. split; [|done].
  exists []. by rewrite app_nil_r.
Qed.

Lemma prelude_ImportFile ctx fd mounter tty :
  prelude (ImportFile env ctx fd mounter tty).
Proof.
  intros w r w' Hrun. unfold ImportFile in Hrun.
  destruct (importFails env fd tty); injection Hrun as <- <-;
    (split; [exists []; by rewrite app_nil_r | done]).
Qed.

Lemma prelude_createFDMap_range ctx l console mounter fdMap keys ttyFile fdm :
  prelude (createFDMap_range env ctx l console mounter fdMap keys ttyFile fdm).
Proof.
  revert ttyFile fdm.
  induction keys as [|appFD keys IH]; intros ttyFile fdm;
    cbn [createFDMap_range]; [apply prelude_ret|].
  destruct (fdMap !! appFD) as [hostFD|]; [|apply IH].
  apply prelude_bind.
  - destruct (console && (appFD <? 3)%Z).
    + destruct ttyFile; [apply prelude_ret|].
      apply prelude_bind; [apply prelude_ImportFile | intros; apply prelude_ret].
    + apply prelude_bind; [apply prelude_ImportFile | intros; apply prelude_ret].
  - intros [appFile tty']. apply prelude_bind; [apply prelude_lift|].
    intros fdm'. apply IH.
Qed.

Lemma prelude_createFDMap ctx l console stdioFDs :
  prelude (createFDMap env ctx l console stdioFDs).
Proof.
  unfold createFDMap.
  destruct stdioFDs as [|fd0 [|fd1 [|fd2 [|]]]];
    first [apply prelude_lift | apply prelude_createFDMap_range].
Qed.

Lemma prelude_Run_boot o : prelude (Run_boot env o).
Proof.
  unfold Run_boot.
  repeat first
    [ apply prelude_bind; [|intros ?]
    | apply prelude_lift
    | apply prelude_newKernel
    | apply prelude_ret
    | match goal with |- prelude (if ?b then _ else _) => destruct b end ].
Qed.

Lemma prelude_Run_mounts o ctx rootCtx : prelude (Run_mounts env o ctx rootCtx).
Proof.
  unfold Run_mounts. apply prelude_bind.
  - intros w r w' [= <- <-]. split; [|done]. exists []. by rewrite app_nil_r.
  - intros [mns|]; [apply prelude_ret|].
    destruct (createMountNamespace _ _ _ _ _) as [created remaining].
    apply prelude_bind; [apply prelude_lift|].
    intros mns w r w' [= <- <-]. split; [|done].
    exists [EvSetRootMountNamespace mns]. split; [done|]. by repeat constructor.
Qed.

End Prelude.

Lemma Start_not_in (pre l : list Event) :
  Forall (λ e, isSetRoot e = true) pre →
  EvStart ∉ l →
  EvStart ∉ pre ++ l.
Proof.
  intros Hpre Hl Hin. apply elem_of_app in Hin as [Hin|Hin]; [|done].
  rewrite Forall_forall in Hpre. by specialize (Hpre _ Hin).
Qed.

Ltac no_start :=
  let H := fresh in
  intros H; apply list_elem_of_In in H; cbn in H; intuition discriminate.

(** C9.  In terminal mode, a run of [Run] in which the kernel is started
    has made exactly these kernel calls after the namespace was set: the
    creation of the init process, one [InitForegroundProcessGroup] on the
    file object of slot 0 with the process group of that new process, then
    [Start] and [WaitExited].  So the foreground group of the terminal object
    is set once, after process creation, before execution begins, to the
    group of the kernel's init process. *)
Theorem Run_foreground_group_once env o r w' :
  TTY o = true →
  Run env o newWorld = (r, w') →
  EvStart ∈ trace w' →
  ∃ pre f pg fdm file,
    trace w' = pre ++ [EvCreateProcess pg (Some fdm);
                       EvInitForegroundProcessGroup f pg;
                       EvStart; EvWaitExited]
    ∧ Forall (λ e, isSetRoot e = true) pre
    ∧ kGlobalInit (kernel w') = Some {| tgProcessGroup := pg |}
    ∧ GetFile (Some fdm) 0 = Some f
    ∧ files w' !! f = Some file
    ∧ isTTY file = true
    ∧ fgProcessGroup file = Some pg
    ∧ r = Ok ().
Proof.
  intros Htty Hrun Hstart.
  unfold Run in Hrun. unfold mbind at 1, M_bind at 1 in Hrun.
  destruct (Run_boot env o newWorld) as [[[creds ls]|e|msg] w1] eqn:Hboot;
    destruct (prelude_Run_boot env o _ _ _ Hboot) as ((l1 & Ht1 & Hl1) & _ & Hg1);
    cbn in Ht1; specialize (Hg1 eq_refl).
  2,3: injection Hrun as <- <-; rewrite Ht1, <- (app_nil_r l1) in Hstart;
       exfalso; revert Hstart; apply Start_not_in; [done | no_start].
  unfold Run_main in Hrun. cbv zeta in Hrun. rewrite Htty in Hrun.
  unfold mbind at 1, M_bind at 1 in Hrun.
  match type of Hrun with context [wrapM ?p ?m w1] =>
    destruct (wrapM p m w1) as [[fdm|e|msg] w2] eqn:Hfd;
    pose proof (prelude_wrapM p m (prelude_createFDMap env _ _ _ _) _ _ _ Hfd)
      as ((l2 & Ht2 & Hl2) & _ & Hg2)
  end; specialize (Hg2 Hg1); rewrite Ht1 in Ht2;
  pose proof (proj2 (Forall_app _ l1 l2) (conj Hl1 Hl2)) as Hl12.
  2,3: injection Hrun as <- <-; rewrite Ht2, <- (app_nil_r (l1 ++ l2)) in Hstart;
       exfalso; revert Hstart; apply Start_not_in; [done | no_start].
  unfold mbind at 1, M_bind at 1 in Hrun.
  match type of Hrun with context [Run_mounts env o ?c ?rc w2] =>
    destruct (Run_mounts env o c rc w2) as [[[]|e|msg] w3] eqn:Hmnt;
    pose proof (prelude_Run_mounts env o c rc _ _ _ Hmnt)
      as ((l3 & Ht3 & Hl3) & _ & Hg3)
  end; specialize (Hg3 Hg2); rewrite Ht2 in Ht3;
  pose proof (proj2 (Forall_app _ _ l3) (conj Hl12 Hl3)) as Hpre.
  2,3: injection Hrun as <- <-; rewrite Ht3, <- (app_nil_r (_ ++ l3)) in Hstart;
       exfalso; revert Hstart; apply Start_not_in; [done | no_start].
  clear Hboot Hfd Hmnt Hl1 Hl2 Hl3 Hl12 Hg1 Hg2.
  set (pre := (l1 ++ l2) ++ l3) in *. clearbody pre.
  unfold mbind, M_bind, wrapM, CreateProcess, GlobalInit,
    InitForegroundProcessGroup, Start, WaitExited, emit, mret, M_ret in Hrun.
  cbn in Hrun. rewrite Hg3 in Hrun.
  destruct (createProcessFails env); cbn in Hrun.
  { injection Hrun as <- <-. rewrite Ht3, <- (app_nil_r pre) in Hstart.
    exfalso; revert Hstart; apply Start_not_in; [done | no_start]. }
  destruct (fst <$> fdm !! 0%Z) as [f|] eqn:Hf; cbn in Hrun.
  2: { injection Hrun as <- <-. cbn in Hstart. rewrite Ht3 in Hstart.
       exfalso; revert Hstart; apply Start_not_in; [done | no_start]. }
  destruct (files w3 !! f) as [file|] eqn:Hfile; cbn in Hrun.
  2: { injection Hrun as <- <-. cbn in Hstart. rewrite Ht3 in Hstart.
       exfalso; revert Hstart; apply Start_not_in; [done | no_start]. }
  destruct (isTTY file) eqn:Hfiletty; cbn in Hrun.
  2: { injection Hrun as <- <-. cbn in Hstart. rewrite Ht3 in Hstart.
       exfalso; revert Hstart; apply Start_not_in; [done | no_start]. }
  destruct (fgProcessGroup file) eqn:Hfg; cbn in Hrun.
  { injection Hrun as <- <-. cbn in Hstart. rewrite Ht3 in Hstart.
    exfalso; revert Hstart; apply Start_not_in; [done | no_start]. }
  destruct (startFails env); cbn in Hrun.
  { injection Hrun as <- <-. cbn in Hstart.
    rewrite Ht3, <- app_assoc in Hstart.
    exfalso; revert Hstart; apply Start_not_in; [done | no_start]. }
  injection Hrun as <- <-. cbn.
  eexists pre, f, (nextProcessGroup w3), fdm, _.
  split; [by rewrite Ht3, <- !app_assoc|].
  split; [done|]. split; [reflexivity|]. split; [exact Hf|].
  split; [apply lookup_insert_eq|]. by repeat split.
Qed.

Lemma Run_foreground_group_once_witness :
  ∃ pre f pg fdm file,
    trace (Run exampleEnv exampleOpt newWorld).2
    = pre ++ [EvCreateProcess pg (Some fdm);
              EvInitForegroundProcessGroup f pg;
              EvStart; EvWaitExited]
    ∧ Forall (λ e, isSetRoot e = true) pre
    ∧ kGlobalInit (kernel (Run exampleEnv exampleOpt newWorld).2)
      = Some {| tgProcessGroup := pg |}
    ∧ GetFile (Some fdm) 0 = Some f
    ∧ files (Run exampleEnv exampleOpt newWorld).2 !! f = Some file
    ∧ isTTY file = true
    ∧ fgProcessGroup file = Some pg
    ∧ (Run exampleEnv exampleOpt newWorld).1 = Ok ().
Proof.
  apply (Run_foreground_group_once exampleEnv exampleOpt).
  - reflexivity.
  - by destruct (Run exampleEnv exampleOpt newWorld).
  - vm_compute. repeat constructor.
Defined.

(** The run of the example, in full: one namespace, one process, one
    terminal object shared by the three slots and given the process group
    of the init process. *)
Example Run_example_trace :
  ∃ mns fdm,
    trace (Run exampleEnv exampleOpt newWorld).2
    = [EvSetRootMountNamespace mns; EvCreateProcess 1 (Some fdm);
       EvInitForegroundProcessGroup 0 1; EvStart; EvWaitExited]
    ∧ GetFile (Some fdm) 0 = Some 0
    ∧ GetFile (Some fdm) 1 = Some 0
    ∧ GetFile (Some fdm) 2 = Some 0
    ∧ mnsMounts mns = [(["proc"], procInode)].
Proof. eexists _, _. split; [vm_compute; reflexivity|]. by repeat split. Qed.

(** The end-to-end example of the spec, by evaluation: with [/a/x] = "base"
    and [/b/x] = "override", the name [x] resolves in the assembled root
    without spending budget and holds "override". *)
Example createRootMount_example_override :
  ∃ root,
    createRootMount exampleEnv rootContext ["/a"; "/b"] = Ok root
    ∧ resolve (view (initialStore exampleEnv) root) 40 [] ["x"] = (Ok ["x"], 40)
    ∧ view (initialStore exampleEnv) root ["x"] = Some (RegularFile "override").
Proof. eexists. split; [reflexivity|]. split; vm_compute; reflexivity. Qed.

(** ** Further properties of the stdio importer *)

Section ImporterLoop.
Context (env : Env) (ctx : Context) (l : LimitSet) (console : bool)
        (mounter : FileOwner) (fdMap : gmap Z Z).

Lemma createFDMap_range_cons appFD rest ttyFile fdm :
  createFDMap_range env ctx l console mounter fdMap (appFD :: rest) ttyFile fdm
  = match fdMap !! appFD with
    | None =>
        createFDMap_range env ctx l console mounter fdMap rest ttyFile fdm
    | Some hostFD =>
        '(appFile, ttyFile) ←
          createFDMap_file env ctx console mounter appFD hostFD ttyFile;
        fdm ← lift (NewFDAt env fdm appFD appFile {| CloseOnExec := false |} l);
        createFDMap_range env ctx l console mounter fdMap rest ttyFile fdm
    end.
Proof. reflexivity. Qed.

(** The file of one descriptor: the terminal file already there, or a fresh
    import; an import that fails changes nothing. *)
Lemma createFDMap_file_cases appFD hostFD ttyFile w r w' :
  createFDMap_file env ctx console mounter appFD hostFD ttyFile w = (r, w') →
  (∃ tty, console && (appFD <? 3)%Z = true ∧ ttyFile = Some tty
          ∧ r = Ok (tty, ttyFile) ∧ w' = w)
  ∨ (∃ isTerminal,
        isTerminal = console && (appFD <? 3)%Z
        ∧ (isTerminal = true → ttyFile = None)
        ∧ importFails env hostFD isTerminal = None
        ∧ r = Ok (nextFile w,
                  if isTerminal then Some (nextFile w) else ttyFile)
        ∧ w' = imported w hostFD mounter isTerminal)
  ∨ (∃ errno, importFails env hostFD (console && (appFD <? 3)%Z) = Some errno
              ∧ (console && (appFD <? 3)%Z = true → ttyFile = None)
              ∧ r = Err (Sys errno) ∧ w' = w).
Proof.
  unfold createFDMap_file, mbind, M_bind, mret, M_ret, ImportFile.
  destruct (console && (appFD <? 3)%Z) eqn:Hc.
  - destruct ttyFile as [tty|].
    + intros [= <- <-]. left. by exists tty.
    + destruct (importFails env hostFD true) as [errno|] eqn:Hi;
        intros [= <- <-].
      * right. right. by exists errno.
      * right. left. by exists true.
  - destruct (importFails env hostFD false) as [errno|] eqn:Hi;
      intros [= <- <-].
    + right. right. by exists errno.
    + right. left. by exists false.
Qed.

Lemma addsFilesOnly_file appFD hostFD ttyFile :
  addsFilesOnly (createFDMap_file env ctx console mounter appFD hostFD ttyFile).
Proof.
  intros w r w' Hrun.
  apply createFDMap_file_cases in Hrun
    as [(tty & _ & _ & _ & ->)|[(t & _ & _ & _ & _ & ->)|(e & _ & _ & _ & ->)]];
    repeat split; try done; cbn; try lia.
  intros h Hh. apply lookup_insert_ne. lia.
Qed.

Lemma addsFilesOnly_range keys ttyFile fdm :
  addsFilesOnly
    (createFDMap_range env ctx l console mounter fdMap keys ttyFile fdm).
Proof.
  revert ttyFile fdm. induction keys as [|appFD keys IH]; intros ttyFile fdm.
  { intros w r w' [= <- <-]. by repeat split. }
  rewrite createFDMap_range_cons.
  destruct (fdMap !! appFD) as [hostFD|]; [|apply IH].
  intros w r w' Hrun. unfold mbind at 1, M_bind at 1 in Hrun.
  destruct (createFDMap_file _ _ _ _ _ _ _ w) as [[[f tty']|e|msg] w1] eqn:Hfile;
    pose proof (addsFilesOnly_file _ _ _ _ _ _ Hfile) as (Hk & Ht & Hp & Hn & Hf).
  2,3: by injection Hrun as <- <-.
  unfold mbind at 1, M_bind at 1, lift in Hrun.
  destruct (NewFDAt env fdm appFD f _ l) as [fdm'|e|msg].
  2,3: by injection Hrun as <- <-.
  destruct (IH _ _ _ _ _ Hrun) as (Hk2 & Ht2 & Hp2 & Hn2 & Hf2).
  repeat split; try congruence; try lia.
  intros h Hh. rewrite Hf2 by lia. by apply Hf.
Qed.

(** The loop never panics, and hands back the error number of the call that
    failed as it is. *)
Lemma createFDMap_range_error keys ttyFile fdm w r w' :
  createFDMap_range env ctx l console mounter fdMap keys ttyFile fdm w
  = (r, w') →
  match r with
  | Ok _ => True
  | Err e => ∃ errno, e = Sys errno
  | Panic _ => False
  end.
Proof.
  revert ttyFile fdm w.
  induction keys as [|appFD keys IH]; intros ttyFile fdm w.
  { by intros [= <- <-]. }
  rewrite createFDMap_range_cons.
  destruct (fdMap !! appFD) as [hostFD|]; [|apply IH].
  intros Hrun. unfold mbind at 1, M_bind at 1 in Hrun.
  destruct (createFDMap_file _ _ _ _ _ _ _ w) as [[[f tty']|e|msg] w1] eqn:Hfile.
  - unfold mbind at 1, M_bind at 1, lift, NewFDAt, outcome in Hrun.
    destruct (newFDFails env l appFD) as [errno|].
    + injection Hrun as <- <-. by exists errno.
    + by apply IH in Hrun.
  - injection Hrun as <- <-.
    apply createFDMap_file_cases in Hfile
      as [(? & _ & _ & [=] & _)|[(? & _ & _ & _ & [=] & _)|(errno & _ & _ & [= ->] & _)]].
    by exists errno.
  - injection Hrun as <- <-.
    apply createFDMap_file_cases in Hfile
      as [(? & _ & _ & [=] & _)|[(? & _ & _ & _ & [=] & _)|(errno & _ & _ & [=] & _)]].
Qed.

(** A table returned by the loop has a descriptor for every key visited,
    beside those it had, and stays sound. *)
Lemma createFDMap_range_table keys ttyFile fdm w fdm' w' :
  createFDMap_range env ctx l console mounter fdMap keys ttyFile fdm w
  = (Ok fdm', w') →
  Forall (λ k, is_Some (fdMap !! k)) keys →
  tableSound w fdm →
  (∀ tty, ttyFile = Some tty → is_Some (files w !! tty)) →
  dom fdm' = dom fdm ∪ list_to_set keys ∧ tableSound w' fdm'.
Proof.
  revert ttyFile fdm w.
  induction keys as [|appFD keys IH]; intros ttyFile fdm w Hrun Hkeys Hs Ht.
  { injection Hrun as <- <-.
    split; [by rewrite list_to_set_nil, (right_id_L ∅ (∪)) | done]. }
  rewrite createFDMap_range_cons in Hrun.
  apply Forall_cons in Hkeys as [[hostFD Hk] Hkeys]. rewrite Hk in Hrun.
  unfold mbind at 1, M_bind at 1 in Hrun.
  destruct (createFDMap_file _ _ _ _ _ _ _ w) as [[[f tty']|e|msg] w1] eqn:Hfile;
    [|discriminate..].
  unfold mbind at 1, M_bind at 1, lift, NewFDAt, outcome in Hrun.
  destruct (newFDFails env l appFD) as [errno|]; [discriminate|].
  assert (Hf : is_Some (files w1 !! f)
               ∧ (∀ h, is_Some (files w !! h) → is_Some (files w1 !! h))
               ∧ (∀ tty, tty' = Some tty → is_Some (files w1 !! tty))).
  { apply createFDMap_file_cases in Hfile
      as [(tty & _ & Htty & Hr & Hw)
         |[(t & _ & Hnone & _ & Hr & Hw)|(? & _ & _ & Hr & _)]];
      simplify_eq.
    - by auto.
    - cbn. split; [by rewrite lookup_insert_eq|]. split.
      + intros h Hh. destruct (decide (h = nextFile w)) as [->|Hne];
          [by rewrite lookup_insert_eq | by rewrite lookup_insert_ne].
      + intros tty Htty. destruct t.
        * injection Htty as <-. by rewrite lookup_insert_eq.
        * destruct (decide (tty = nextFile w)) as [->|Hne];
            [by rewrite lookup_insert_eq | rewrite lookup_insert_ne by done; auto]. }
  destruct Hf as (Hf1 & Hf2 & Hf3).
  apply IH in Hrun as [Hdom Hsound]; [|done| |done].
  - split; [|done]. unfold FDMap in *.
    rewrite Hdom, dom_insert_L, list_to_set_cons.
    by rewrite (assoc_L (∪)), (comm_L (∪) (dom fdm)).
  - intros fd g flags Hg. unfold FDMap in *.
    destruct (decide (fd = appFD)) as [->|Hne].
    + rewrite lookup_insert_eq in Hg. by injection Hg as <- <-.
    + rewrite lookup_insert_ne in Hg by done.
      destruct (Hs _ _ _ Hg) as [Hex ->]. auto.
Qed.

End ImporterLoop.

(** [createFDMap] leaves kernel, log and process groups alone. *)
Lemma createFDMap_frame env ctx l console stdioFDs w r w' :
  createFDMap env ctx l console stdioFDs w = (r, w') →
  kernel w' = kernel w ∧ trace w' = trace w
  ∧ nextProcessGroup w' = nextProcessGroup w.
Proof.
  unfold createFDMap.
  destruct stdioFDs as [|fd0 [|fd1 [|fd2 [|fd3 rest]]]];
    try (intros [= <- <-]; by repeat split).
  intros Hrun. apply addsFilesOnly_range in Hrun as (Hk & Ht & Hp & _).
  by repeat split.
Qed.

(** X1. A descriptor list whose length is not three is refused with the
    message that names the length, before anything is imported: the world is
    left as it was. *)
Theorem createFDMap_wrong_length env ctx l console (stdioFDs : list Z) w :
  List.length stdioFDs ≠ 3 →
  createFDMap env ctx l console stdioFDs w
  = (Err (Msg ("stdioFDs should contain exactly 3 FDs (stdin, stdout, and stderr), but "
                 +:+ pretty (List.length stdioFDs) +:+ " FDs received")), w).
Proof.
  intros Hlen. destruct stdioFDs as [|fd0 [|fd1 [|fd2 [|fd3 rest]]]];
    try reflexivity.
  by destruct Hlen.
Qed.

Lemma createFDMap_wrong_length_witness :
  createFDMap exampleEnv rootContext someLimits true [0; 1]%Z newWorld
  = (Err (Msg "stdioFDs should contain exactly 3 FDs (stdin, stdout, and stderr), but 2 FDs received"),
     newWorld).
Proof.
  apply (createFDMap_wrong_length exampleEnv rootContext someLimits true
           [0; 1]%Z newWorld).
  cbn. lia.
Defined.

(** X2. Whatever its outcome, [createFDMap] touches nothing but the table of
    file objects, and there it only adds: kernel, log and process groups are
    as before, and every file object that existed is unchanged. *)
Theorem createFDMap_adds_files_only env ctx l console stdioFDs w r w' :
  createFDMap env ctx l console stdioFDs w = (r, w') →
  kernel w' = kernel w ∧ trace w' = trace w
  ∧ nextProcessGroup w' = nextProcessGroup w
  ∧ (nextFile w ≤ nextFile w')%nat
  ∧ ∀ h, (h < nextFile w)%nat → files w' !! h = files w !! h.
Proof.
  unfold createFDMap.
  destruct stdioFDs as [|fd0 [|fd1 [|fd2 [|fd3 rest]]]];
    try (intros [= <- <-]; by repeat split).
  apply addsFilesOnly_range.
Qed.

Lemma createFDMap_adds_files_only_witness :
  let w' := (createFDMap exampleEnv rootContext someLimits false
               [0; 1; 2]%Z importedOnce).2 in
  kernel w' = kernel importedOnce ∧ trace w' = trace importedOnce
  ∧ nextProcessGroup w' = nextProcessGroup importedOnce
  ∧ (nextFile importedOnce ≤ nextFile w')%nat
  ∧ ∀ h, (h < nextFile importedOnce)%nat →
         files w' !! h = files importedOnce !! h.
Proof.
  intros w'.
  apply (createFDMap_adds_files_only exampleEnv rootContext someLimits false
           [0; 1; 2]%Z importedOnce
           (createFDMap exampleEnv rootContext someLimits false
              [0; 1; 2]%Z importedOnce).1).
  by destruct (createFDMap _ _ _ _ _ _).
Defined.

(** X3. [createFDMap] never panics, and its errors are of two kinds only:
    the length message, for a list that has not three entries, and
    otherwise the bare error number of the import or of the table insertion
    that failed, with no wrapper. *)
Theorem createFDMap_errors env ctx l console (stdioFDs : list Z) w r w' :
  createFDMap env ctx l console stdioFDs w = (r, w') →
  match r with
  | Ok _ => List.length stdioFDs = 3
  | Err e => (List.length stdioFDs ≠ 3 ∧ ∃ msg, e = Msg msg)
             ∨ (List.length stdioFDs = 3 ∧ ∃ errno, e = Sys errno)
  | Panic _ => False
  end.
Proof.
  unfold createFDMap.
  destruct stdioFDs as [|fd0 [|fd1 [|fd2 [|fd3 rest]]]];
    try (intros [= <- <-]; left; split; [cbn; lia | eauto]).
  intros Hrun. apply createFDMap_range_error in Hrun.
  destruct r; [reflexivity | right; by split | done].
Qed.

Lemma createFDMap_errors_witness :
  match (createFDMap (onlyStdinEnv [0; 1; 2]%Z) rootContext someLimits false
           [0; 1; 2]%Z newWorld).1 with
  | Ok _ => List.length [0; 1; 2]%Z = 3
  | Err e => (List.length [0; 1; 2]%Z ≠ 3 ∧ ∃ msg, e = Msg msg)
             ∨ (List.length [0; 1; 2]%Z = 3 ∧ ∃ errno, e = Sys errno)
  | Panic _ => False
  end.
Proof.
  apply (createFDMap_errors (onlyStdinEnv [0; 1; 2]%Z) rootContext someLimits
           false [0; 1; 2]%Z newWorld _
           (createFDMap (onlyStdinEnv [0; 1; 2]%Z) rootContext someLimits false
              [0; 1; 2]%Z newWorld).2).
  by destruct (createFDMap _ _ _ _ _ _).
Defined.

(** X4. A table returned by [createFDMap] has the descriptors 0, 1 and 2 and
    no other; each holds a file object that exists, with the zero flags. *)
Theorem createFDMap_table env ctx l console stdioFDs w fdm w' :
  rangeOrder env ≡ₚ [0; 1; 2]%Z →
  createFDMap env ctx l console stdioFDs w = (Ok fdm, w') →
  dom fdm = {[0%Z; 1%Z; 2%Z]} ∧ tableSound w' fdm.
Proof.
  intros Hp. unfold createFDMap.
  destruct stdioFDs as [|fd0 [|fd1 [|fd2 [|fd3 rest]]]]; try discriminate.
  fold (stdioMap fd0 fd1 fd2). intros Hrun.
  apply createFDMap_range_table in Hrun as [Hdom Hsound].
  - split; [|done]. unfold FDMap in *.
    rewrite Hdom, dom_empty_L, (left_id_L ∅ (∪)), Hp. reflexivity.
  - rewrite Hp. repeat constructor; eexists;
      [apply stdioMap_0 | apply stdioMap_1 | apply stdioMap_2].
  - intros fd f flags Hf. unfold FDMap in *. by rewrite lookup_empty in Hf.
  - discriminate.
Qed.

Lemma createFDMap_table_witness :
  ∃ fdm w',
    createFDMap exampleEnv rootContext someLimits false [7; 8; 9]%Z importedOnce
    = (Ok fdm, w')
    ∧ dom fdm = {[0%Z; 1%Z; 2%Z]} ∧ tableSound w' fdm.
Proof.
  eexists _, _. split; [vm_compute; reflexivity|].
  eapply (createFDMap_table exampleEnv rootContext someLimits false
            [7; 8; 9]%Z importedOnce).
  - reflexivity.
  - vm_compute. reflexivity.
Defined.

Lemma slotsFree_iff env l :
  slotsFree env l
  ↔ newFDFails env l 0 = None ∧ newFDFails env l 1 = None
    ∧ newFDFails env l 2 = None.
Proof.
  split.
  - intros Hs. repeat split; apply Hs; lia.
  - intros (H0 & H1 & H2) fd Hfd.
    assert (fd = 0 ∨ fd = 1 ∨ fd = 2)%Z as [->|[->| ->]] by lia; done.
Qed.

(** Runs the loop of [createFDMap] in hypothesis [H], splitting on every
    oracle it meets. *)
Ltac split_createFDMap H :=
  cbn [createFDMap_range] in H;
  rewrite stdioMap_0, stdioMap_1, stdioMap_2 in H;
  cbn [andb Z.ltb Z.compare] in H;
  unfold mbind, M_bind, mret, M_ret, ImportFile, lift, NewFDAt, outcome in H;
  cbn in H;
  repeat match type of H with
         | context [importFails ?e ?fd ?t] =>
             destruct (importFails e fd t) eqn:?; cbn in H
         | context [newFDFails ?e ?l ?fd] =>
             destruct (newFDFails e l fd) eqn:?; cbn in H
         end.

(** X5. Without terminal mode the import succeeds exactly when each of the
    three host descriptors can be imported as a regular file and the table
    accepts each of the three slots. *)
Theorem createFDMap_regular_succeeds_iff env ctx l a b c w :
  rangeOrder env ≡ₚ [0; 1; 2]%Z →
  (∃ fdm w', createFDMap env ctx l false [a; b; c] w = (Ok fdm, w'))
  ↔ importFails env a false = None ∧ importFails env b false = None
    ∧ importFails env c false = None ∧ slotsFree env l.
Proof.
  intros Hp. rewrite slotsFree_iff.
  unfold createFDMap. fold (stdioMap a b c). split.
  - intros (fdm & w' & Hrun).
    destruct (rangeOrder_cases _ Hp) as [Ho|[Ho|[Ho|[Ho|[Ho|Ho]]]]];
      rewrite Ho in Hrun; split_createFDMap Hrun; try discriminate;
      by repeat split.
  - intros (Ha & Hb & Hc & H0 & H1 & H2).
    destruct (rangeOrder_cases _ Hp) as [->|[->|[->|[->|[->| ->]]]]];
      run_createFDMap Ha Hb Hc H0 H1 H2; by eexists _, _.
Qed.

Lemma createFDMap_regular_succeeds_iff_witness :
  ¬ ∃ fdm w',
      createFDMap (onlyStdinEnv [2; 0; 1]%Z) rootContext someLimits false
        [0; 1; 2]%Z newWorld = (Ok fdm, w').
Proof.
  intros Hok.
  apply (createFDMap_regular_succeeds_iff (onlyStdinEnv [2; 0; 1]%Z)
           rootContext someLimits 0 1 2 newWorld) in Hok.
  - destruct Hok as (_ & Hb & _). discriminate Hb.
  - vm_compute. apply (Permutation_cons_append [0; 1]%Z 2%Z).
Defined.

(** X6. In terminal mode the import succeeds exactly when the host
    descriptor of the slot visited first can be imported as a TTY and the
    table accepts the three slots: the host descriptors of the two other
    slots are never looked at, valid or not. *)
Theorem createFDMap_terminal_succeeds_iff env ctx l a b c w :
  rangeOrder env ≡ₚ [0; 1; 2]%Z →
  (∃ fdm w', createFDMap env ctx l true [a; b; c] w = (Ok fdm, w'))
  ↔ (∃ first rest fd,
        rangeOrder env = first :: rest
        ∧ stdioMap a b c !! first = Some fd
        ∧ importFails env fd true = None)
    ∧ slotsFree env l.
Proof.
  intros Hp. rewrite slotsFree_iff.
  unfold createFDMap. fold (stdioMap a b c). split.
  - intros (fdm & w' & Hrun).
    destruct (rangeOrder_cases _ Hp) as [Ho|[Ho|[Ho|[Ho|[Ho|Ho]]]]];
      rewrite Ho in Hrun |- *; split_createFDMap Hrun; try discriminate;
      (split; [eexists _, _, _; split; [reflexivity|]; split;
               [first [apply stdioMap_0 | apply stdioMap_1 | apply stdioMap_2]
               | done]
              | by repeat split]).
  - intros ((first & rest & fd & Ho & Hfd & Hi) & H0 & H1 & H2).
    destruct (rangeOrder_cases _ Hp) as [Ho'|[Ho'|[Ho'|[Ho'|[Ho'|Ho']]]]];
      rewrite Ho' in Ho |- *; injection Ho as <- <-;
      first [ rewrite stdioMap_0 in Hfd | rewrite stdioMap_1 in Hfd
            | rewrite stdioMap_2 in Hfd ];
      injection Hfd as <-;
      run_createFDMap Hi Hi Hi H0 H1 H2; by eexists _, _.
Qed.

Lemma createFDMap_terminal_succeeds_iff_witness :
  ∃ fdm w',
    createFDMap (onlyStdinEnv [0; 2; 1]%Z) rootContext someLimits true
      [0; 1; 2]%Z newWorld = (Ok fdm, w').
Proof.
  apply (createFDMap_terminal_succeeds_iff (onlyStdinEnv [0; 2; 1]%Z)
           rootContext someLimits 0 1 2 newWorld).
  - vm_compute. apply perm_skip, perm_swap.
  - split.
    + exists 0%Z, [2; 1]%Z, 0%Z. by repeat split.
    + intros fd Hfd. reflexivity.
Defined.

(** ** Further properties of root assembly *)

Section AssemblyFailure.
Context (env : Env) (ctx : Context).

(** The loop stops at the first entry whose host mount fails. *)
Lemma createRootMount_range_mount_failure wd (pre : list string) m post e :
  (∀ m', m' ∈ pre →
         mountFails env whitelistfs "" ("root=" +:+ hostPath wd m') = None) →
  (∀ upper lower, overlayFails env upper lower = None) →
  mountFails env whitelistfs "" ("root=" +:+ hostPath wd m) = Some e →
  ∀ i rootInode prevInode,
    (i ≠ 0 → is_Some prevInode) →
    createRootMount_range env ctx whitelistfs rw wd i (pre ++ m :: post)
      rootInode prevInode
    = Err (Errorf "failed to generate root mount point" (Sys e)).
Proof.
  intros Hpre Ho Hm. induction pre as [|m1 pre IH]; intros i rootInode prevInode Hprev.
  - cbn [app createRootMount_range]. unfold Mount.
    replace (if negb (filepath.IsAbs m) then filepath.Join wd m else m)
      with (hostPath wd m) by (unfold hostPath; by destruct (filepath.IsAbs m)).
    by rewrite Hm.
  - cbn [app createRootMount_range]. unfold Mount.
    replace (if negb (filepath.IsAbs m1) then filepath.Join wd m1 else m1)
      with (hostPath wd m1) by (unfold hostPath; by destruct (filepath.IsAbs m1)).
    rewrite Hpre by left. cbn [outcome wrap mbind result_mbind result_bind].
    destruct i as [|i]; cbn [Nat.eqb negb].
    + cbn [mbind result_mbind result_bind]. apply IH.
      * intros m' Hm'. apply Hpre. by right.
      * by eexists.
    + destruct (Hprev ltac:(lia)) as [prev ->].
      unfold NewOverlayRoot. rewrite Ho.
      cbn [outcome wrap mbind result_mbind result_bind]. apply IH.
      * intros m' Hm'. apply Hpre. by right.
      * by eexists.
Qed.

End AssemblyFailure.

(** X7. Root assembly stops at the first list entry whose host mount fails:
    it returns that error under the prefix "failed to generate root mount
    point", whatever entries follow. *)
Theorem createRootMount_host_mount_failure env ctx wd (pre : list string) m
    post e :
  Getwd env = Ok wd →
  (∀ m', m' ∈ pre →
         mountFails env whitelistfs "" ("root=" +:+ hostPath wd m') = None) →
  (∀ upper lower, overlayFails env upper lower = None) →
  mountFails env whitelistfs "" ("root=" +:+ hostPath wd m) = Some e →
  createRootMount env ctx (pre ++ m :: post)
  = Err (Errorf "failed to generate root mount point" (Sys e)).
Proof.
  intros Hwd Hpre Ho Hm. unfold createRootMount. rewrite Hwd.
  cbn [mbind result_mbind result_bind].
  change (FindFilesystem "whitelistfs") with (Some whitelistfs). cbv iota.
  change {| ReadOnly := false |} with rw.
  by rewrite (createRootMount_range_mount_failure env ctx wd pre m post e).
Qed.

Lemma createRootMount_host_mount_failure_witness :
  createRootMount (brokenMountEnv "/b") rootContext ["/a"; "/b"; "/c"]
  = Err (Errorf "failed to generate root mount point" (Sys EIO)).
Proof.
  apply (createRootMount_host_mount_failure (brokenMountEnv "/b") rootContext
           "/work" ["/a"] "/b" ["/c"] EIO).
  - reflexivity.
  - intros m' Hm'. apply list_elem_of_In in Hm'. cbn in Hm'.
    destruct Hm' as [<-|[]]. reflexivity.
  - intros upper lower. reflexivity.
  - reflexivity.
Defined.



Lemma IsAbs_hostPath wd m :
  filepath.IsAbs wd = true → filepath.IsAbs (hostPath wd m) = true.
Proof.
  intros Hwd. unfold hostPath.
  destruct (filepath.IsAbs m) eqn:Hm; [exact Hm|].
  unfold filepath.Join.
  destruct wd as [|c wd]; [discriminate|]. cbn [String.eqb].
  unfold filepath.Clean.
  change (filepath.IsAbs (String c wd +:+ "/" +:+ m))
    with (filepath.IsAbs (String c wd)).
  rewrite Hwd. reflexivity.
Qed.

(** X9. When the working directory is absolute, every host directory that
    root assembly mounts is named by an absolute path: an absolute list
    entry as it is, a relative one joined to the working directory. *)
Theorem createRootMount_host_paths_absolute env ctx wd (mounts : list string)
    root :
  Getwd env = Ok wd → filepath.IsAbs wd = true →
  createRootMount env ctx mounts = Ok root →
  ∀ layer, layer ∈ layers root → isHostLayer layer = true →
    ∃ m, m ∈ mounts
         ∧ layer = MountRoot whitelistfs "" {| ReadOnly := false |}
                     ("root=" +:+ hostPath wd m)
         ∧ filepath.IsAbs (hostPath wd m) = true
         ∧ (filepath.IsAbs m = true → hostPath wd m = m).
Proof.
  intros Hwd Habs Hroot layer Hin Hhost.
  apply createRootMount_inv in Hroot as (wd' & m0 & rest & Hwd' & -> & ->).
  rewrite Hwd in Hwd'. injection Hwd' as <-.
  cbn [assembled layers] in Hin. unfold hostStack in Hin.
  rewrite layers_stack in Hin.
  apply list_elem_of_In in Hin. cbn [layers hostLayer] in Hin.
  rewrite !in_app_iff in Hin.
  assert (Hm : ∃ m, m ∈ m0 :: rest ∧ layer = hostLayer wd m).
  { destruct Hin as [[<-|[]]|[[Hin|[<-|[]]]|[<-|[]]]]; try discriminate.
    - apply in_rev, in_map_iff in Hin as (m & <- & Hm).
      exists m. split; [right; by apply list_elem_of_In | done].
    - exists m0. split; [left | done]. }
  destruct Hm as (m & Hm & ->). exists m.
  split; [done|]. split; [reflexivity|].
  split; [by apply IsAbs_hostPath|].
  intros Hmabs. unfold hostPath. by rewrite Hmabs.
Qed.

Lemma createRootMount_host_paths_absolute_witness :
  ∃ m, m ∈ ["/a"; "rel/./x"]
       ∧ MountRoot whitelistfs "" rw "root=/work/rel/x"
         = MountRoot whitelistfs "" {| ReadOnly := false |}
             ("root=" +:+ hostPath "/work" m)
       ∧ filepath.IsAbs (hostPath "/work" m) = true
       ∧ (filepath.IsAbs m = true → hostPath "/work" m = m).
Proof.
  eapply (createRootMount_host_paths_absolute exampleEnv rootContext "/work"
            ["/a"; "rel/./x"]).
  - reflexivity.
  - reflexivity.
  - reflexivity.
  - cbn. apply list_elem_of_In. cbn. right. left. reflexivity.
  - reflexivity.
Defined.

(** ** Further properties of namespace construction *)

(** The lookup never hands back more budget than it was given. *)
Lemma resolve_budget t budget :
  ∀ cur rest, ((resolve t budget cur rest).2 ≤ budget)%nat.
Proof.
  induction budget as [|b IHb]; intros cur rest; revert cur;
    (induction rest as [|c rest IH]; intros cur; rewrite resolve_unfold;
     [done|]);
    (destruct (t (cur ++ [c])) as [[| |target]|];
     first [ apply IH | by destruct rest | by cbn
           | etrans; [apply IHb | cbn; lia] ]).
Qed.

Section NamespaceShape.
Context (env : Env) (userCtx rootCtx : Context).

(** What the steps before the lookup return, whenever they return. *)
Lemma createMountNamespace_prepare_inv (mounts : list string) mns inode :
  createMountNamespace_prepare env userCtx rootCtx mounts = Ok (mns, inode) →
  ∃ wd m0 rest,
    Getwd env = Ok wd ∧ mounts = m0 :: rest
    ∧ mns = {| mnsRoot := assembled (hostStack wd m0 rest); mnsMounts := [] |}
    ∧ inode = procInode.
Proof.
  unfold createMountNamespace_prepare. intros Hrun.
  apply bind_Ok in Hrun as (root & Hroot & Hrun).
  apply wrap_Ok, createRootMount_inv in Hroot
    as (wd & m0 & rest & Hwd & -> & ->).
  apply bind_Ok in Hrun as (mns' & Hmns & Hrun).
  unfold NewMountNamespace in Hmns.
  apply wrap_Ok, outcome_Ok in Hmns; destruct Hmns as [_ ->].
  change (FindFilesystem "proc") with (Some procfs) in Hrun. cbv iota zeta in Hrun.
  unfold Mount in Hrun.
  apply bind_Ok in Hrun as (inode' & Hinode & Hrun).
  apply wrap_Ok, outcome_Ok in Hinode; destruct Hinode as [_ ->].
  injection Hrun as <- <-. by exists wd, m0, rest.
Qed.

End NamespaceShape.


(** A namespace [createMountNamespace] returns has one mount, the proc
    filesystem. *)
Lemma createMountNamespace_prepare_shape env userCtx rootCtx
    (mounts : list string) budget mns remaining :
  createMountNamespace env userCtx rootCtx mounts budget = (Ok mns, remaining) →
  ∃ dirent, mnsMounts mns = [(dirent, procInode)].
Proof.
  unfold createMountNamespace. intros Hrun.
  destruct (createMountNamespace_prepare env userCtx rootCtx mounts)
    as [[mns0 inode]|e|msg] eqn:Hprep; [|discriminate..].
  apply createMountNamespace_prepare_inv in Hprep
    as (wd & m0 & rest & Hwd & -> & -> & ->).
  destruct (FindInode _ _ _ _ _ _ _) as [[dirent|e|msg] left'];
    cbn [wrap mbind result_mbind result_bind] in Hrun; [|discriminate..].
  injection Hrun as Hmns <-. unfold MountAt in Hmns.
  apply wrap_Ok, outcome_Ok in Hmns; destruct Hmns as [_ ->].
  by exists dirent.
Qed.

(** X10. For every environment, a namespace that [createMountNamespace]
    returns has the assembled root of a non-empty list and exactly one
    mount: the proc filesystem, mounted from device "none", at the
    directory entry the lookup of [/proc] from the root ended in; the
    counter is left at what the lookup left. *)
Theorem createMountNamespace_success_shape env userCtx rootCtx
    (mounts : list string) budget mns remaining :
  createMountNamespace env userCtx rootCtx mounts budget = (Ok mns, remaining) →
  ∃ wd m0 rest dirent,
    Getwd env = Ok wd ∧ mounts = m0 :: rest
    ∧ mnsRoot mns = assembled (hostStack wd m0 rest)
    ∧ mnsMounts mns = [(dirent, MountRoot procfs "none" {| ReadOnly := false |} "")]
    ∧ resolve (view (initialStore env) (mnsRoot mns)) budget [] ["proc"]
      = (Ok dirent, remaining).
Proof.
  unfold createMountNamespace. intros Hrun.
  destruct (createMountNamespace_prepare env userCtx rootCtx mounts)
    as [[mns0 inode]|e|msg] eqn:Hprep; [|discriminate..].
  apply createMountNamespace_prepare_inv in Hprep
    as (wd & m0 & rest & Hwd & -> & -> & ->).
  unfold FindInode in Hrun. cbn [mnsRoot] in Hrun.
  change (filepath.IsAbs "/proc") with true in Hrun.
  change (components "/proc") with ["proc"] in Hrun. cbv iota zeta in Hrun.
  destruct (resolve _ budget [] ["proc"]) as [[dirent|e|msg] left'] eqn:Hres;
    cbn [wrap mbind result_mbind result_bind] in Hrun; [|discriminate..].
  injection Hrun as Hmns <-.
  unfold MountAt in Hmns.
  apply wrap_Ok, outcome_Ok in Hmns; destruct Hmns as [_ ->].
  exists wd, m0, rest, dirent. cbn [mnsRoot mnsMounts]. by rewrite Hres.
Qed.

Lemma createMountNamespace_success_shape_witness :
  ∃ mns wd m0 rest dirent,
    createMountNamespace (chainEnv 2) rootContext rootContext ["/a"] 40
    = (Ok mns, 38)
    ∧ Getwd (chainEnv 2) = Ok wd ∧ ["/a"] = m0 :: rest
    ∧ mnsRoot mns = assembled (hostStack wd m0 rest)
    ∧ mnsMounts mns = [(dirent, MountRoot procfs "none" {| ReadOnly := false |} "")]
    ∧ resolve (view (initialStore (chainEnv 2)) (mnsRoot mns)) 40 [] ["proc"]
      = (Ok dirent, 38).
Proof.
  eexists. 
  assert (Hrun : createMountNamespace (chainEnv 2) rootContext rootContext
                   ["/a"] 40
                 = (Ok {| mnsRoot := assembled (hostStack "/work" "/a" []);
                          mnsMounts := [(["ll"], procInode)] |}, 38))
    by (vm_compute; reflexivity).
  destruct (createMountNamespace_success_shape _ _ _ _ _ _ _ Hrun)
    as (wd & m0 & rest & dirent & H).
  exists wd, m0, rest, dirent. split; [exact Hrun | exact H].
Defined.

(** X11. The traversal counter is only ever spent: whatever
    [createMountNamespace] returns, the counter it leaves does not exceed
    the one it was given, and a construction that fails before the lookup
    leaves it untouched. *)
Theorem createMountNamespace_budget env userCtx rootCtx (mounts : list string)
    (budget : nat) :
  ((createMountNamespace env userCtx rootCtx mounts budget).2 ≤ budget)%nat
  ∧ ((∀ pair, createMountNamespace_prepare env userCtx rootCtx mounts
              ≠ Ok pair) →
     (createMountNamespace env userCtx rootCtx mounts budget).2 = budget).
Proof.
  unfold createMountNamespace.
  destruct (createMountNamespace_prepare env userCtx rootCtx mounts)
    as [[mns inode]|e|msg]; [|by split..].
  split; [|intros Hnot; by destruct (Hnot (mns, inode))].
  unfold FindInode. cbv zeta.
  pose proof (resolve_budget (view (initialStore env) (mnsRoot mns)) budget
                (if filepath.IsAbs "/proc" then [] else [])
                (components "/proc")) as Hle.
  by destruct (resolve _ budget _ _) as [found remaining].
Qed.

(** The namespace step on a kernel without a namespace: it sets the
    namespace [createMountNamespace] returned, or changes nothing. *)
Lemma Run_mounts_cases env o ctx rootCtx w r w' :
  kMounts (kernel w) = None →
  Run_mounts env o ctx rootCtx w = (r, w') →
  (∃ mns,
      (createMountNamespace env ctx rootCtx
         (strings.Split (Mounts o) ","%char) (MaxSymlinkTraversals env)).1
      = Ok mns
      ∧ r = Ok () ∧ w' = withNamespace w mns)
  ∨ (r ≠ Ok () ∧ w' = w).
Proof.
  intros Hk. unfold Run_mounts, mbind, M_bind, RootMountNamespace.
  rewrite Hk.
  destruct (createMountNamespace _ _ _ _ _) as [[mns|e|msg] remaining];
    cbn; intros [= <- <-].
  - left. by exists mns.
  - by right.
  - by right.
Qed.

(** X12. The namespace step of [Run] is all or nothing on a kernel without
    a namespace: either it returns nil, and the kernel holds exactly the
    namespace [createMountNamespace] built, logged by one
    [SetRootMountNamespace], or it returns an error or panics, and kernel,
    log and file objects are as before. *)
Theorem Run_mounts_all_or_nothing env o ctx rootCtx w r w' :
  kMounts (kernel w) = None →
  Run_mounts env o ctx rootCtx w = (r, w') →
  (r = Ok ()
   ∧ ∃ mns dirent,
       kMounts (kernel w') = Some mns
       ∧ mnsMounts mns = [(dirent, procInode)]
       ∧ trace w' = trace w ++ [EvSetRootMountNamespace mns]
       ∧ kGlobalInit (kernel w') = kGlobalInit (kernel w)
       ∧ files w' = files w)
  ∨ (r ≠ Ok () ∧ w' = w).
Proof.
  intros Hk Hrun.
  apply Run_mounts_cases in Hrun as [(mns & Hmns & -> & ->)|Hfail];
    [left | by right | done].
  split; [reflexivity|].
  destruct (createMountNamespace _ _ _ _ _) as [created remaining] eqn:Hc.
  cbn in Hmns. subst created.
  apply createMountNamespace_prepare_shape in Hc as (dirent & Hd).
  by exists mns, dirent.
Qed.

Lemma Run_mounts_all_or_nothing_witness :
  (Run_mounts (chainEnv 41) exampleOpt rootContext rootContext importedOnce).1
  ≠ Ok ()
  ∧ (Run_mounts (chainEnv 41) exampleOpt rootContext rootContext importedOnce).2
    = importedOnce.
Proof.
  destruct (Run_mounts_all_or_nothing (chainEnv 41) exampleOpt rootContext
              rootContext importedOnce
              (Run_mounts (chainEnv 41) exampleOpt rootContext rootContext
                 importedOnce).1
              (Run_mounts (chainEnv 41) exampleOpt rootContext rootContext
                 importedOnce).2) as [[Hok _]|Hfail].
  - reflexivity.
  - by destruct (Run_mounts _ _ _ _ _).
  - vm_compute in Hok. discriminate Hok.
  - exact Hfail.
Defined.

(** ** Further properties of [Run] *)

(** The set-up steps make no kernel call and import nothing: in a fresh
    world they change nothing at all, and when they succeed they yield the
    root credentials and the limits of [NewLinuxLimitSet]. *)
Lemma Run_boot_newWorld env o r w1 :
  Run_boot env o newWorld = (r, w1) →
  w1 = newWorld
  ∧ ∀ x, r = Ok x →
      ∃ ls, x = ({| KUID := 0; KGID := 0 |}, ls) ∧ NewLinuxLimitSet env = Ok ls.
Proof.
  unfold Run_boot, createMemoryFile, mbind, M_bind, result_mbind, result_bind,
    lift, modifyKernel, mret, M_ret, result_ret, outcome, wrap.
  cbn.
  destruct (usageInitFails env); cbn; [by intros [= <- <-]|].
  destruct (newPlatformFails env); cbn; [by intros [= <- <-]|].
  destruct (createMemFDFails env); cbn; [by intros [= <- <-]|].
  destruct (newMemoryFileFails env); cbn; [by intros [= <- <-]|].
  destruct (prepareVDSOFails env); cbn; [by intros [= <- <-]|].
  destruct (newTimekeeperFails env); cbn; [by intros [= <- <-]|].
  destruct (netStack env (HostNet o)) as [[|]|e|msg]; cbn;
    try (by intros [= <- <-]).
  - destruct (configureFails env); cbn; [by intros [= <- <-]|].
    destruct (kernelInitFails env); cbn; [by intros [= <- <-]|].
    destruct (NewLinuxLimitSet env) as [ls|e|msg]; cbn; intros [= <- <-];
      (split; [done|]); intros x [= <-]. by exists ls.
  - destruct (kernelInitFails env); cbn; [by intros [= <- <-]|].
    destruct (NewLinuxLimitSet env) as [ls|e|msg]; cbn; intros [= <- <-];
      (split; [done|]); intros x [= <-]. by exists ls.
Qed.

(** Every way a run can end. *)
Lemma Run_end env o r w' :
  Run env o newWorld = (r, w') →
  RunEnd (TTY o) (importedTable env o) r (kernel w') (trace w').
Proof.
  intros Hrun.
  unfold Run in Hrun. unfold mbind at 1, M_bind at 1 in Hrun.
  destruct (Run_boot env o newWorld) as [rb w1] eqn:Hboot.
  apply Run_boot_newWorld in Hboot as [-> Hok].
  destruct rb as [[creds ls]|e|msg].
  2,3: injection Hrun as <- <-; by apply end_early.
  destruct (Hok _ eq_refl) as (ls' & [= -> <-] & Hls). clear Hok.
  unfold Run_main in Hrun. cbv zeta in Hrun.
  unfold mbind at 1, M_bind at 1 in Hrun.
  change (NewContext _) with rootContext in Hrun.
  unfold wrapM at 1 in Hrun.
  destruct (createFDMap env rootContext ls (TTY o) [0; 1; 2]%Z newWorld)
    as [rf w2] eqn:Hfd.
  pose proof (createFDMap_frame _ _ _ _ _ _ _ _ Hfd) as (Hk2 & Ht2 & Hp2).
  destruct rf as [fdm|e|msg]; cbn [wrap] in Hrun.
  2,3: injection Hrun as <- <-; rewrite Hk2, Ht2; by apply end_early.
  assert (Htable : importedTable env o fdm) by (by exists ls, w2).
  unfold mbind at 1, M_bind at 1 in Hrun.
  destruct (Run_mounts env o rootContext rootContext w2) as [rm w3] eqn:Hmnt.
  apply Run_mounts_cases in Hmnt as [(mns & _ & -> & ->)|[Hfail ->]];
    [| |by rewrite Hk2].
  2: { destruct rm as [[]|e|msg]; [done| |]; injection Hrun as <- <-;
       rewrite Hk2, Ht2; by apply end_early. }
  unfold mbind, M_bind, wrapM, CreateProcess, GlobalInit,
    InitForegroundProcessGroup, Start, WaitExited, emit, mret, M_ret,
    withNamespace in Hrun.
  cbn in Hrun. rewrite Hk2, Ht2, Hp2 in Hrun. cbn in Hrun.
  destruct (createProcessFails env); cbn in Hrun.
  { injection Hrun as <- <-. cbn. by apply end_mounted. }
  destruct (TTY o) eqn:Htty.
  - destruct (fst <$> fdm !! 0%Z) as [f|] eqn:Hf; cbn in Hrun.
    2: { injection Hrun as <- <-. cbn. by apply end_created. }
    destruct (files w2 !! f) as [file|]; cbn in Hrun.
    2: { injection Hrun as <- <-. cbn. by apply end_created. }
    destruct (isTTY file); cbn in Hrun.
    2: { injection Hrun as <- <-. cbn. by apply end_created. }
    destruct (fgProcessGroup file); cbn in Hrun.
    { injection Hrun as <- <-. cbn. by apply end_created. }
    destruct (startFails env); cbn in Hrun; injection Hrun as <- <-; cbn.
    + by apply end_foreground.
    + by apply end_ran_terminal.
  - cbn in Hrun.
    destruct (startFails env); cbn in Hrun; injection Hrun as <- <-; cbn.
    + by apply end_created.
    + by apply end_ran.
Qed.

(** Decides membership of an event in a log given by its entries. *)
Ltac in_log H :=
  apply list_elem_of_In in H; cbn in H;
  repeat match type of H with
         | _ ∨ _ => destruct H as [H|H]
         | False => destruct H
         end;
  simplify_eq.



(** X14. [Run] returns nil exactly when the kernel was started and waited
    for; a started kernel has its root mount namespace and its init
    process, and a run that fails leaves the kernel not started. *)
Theorem Run_success_iff_started env o r w' :
  Run env o newWorld = (r, w') →
  (r = Ok () ↔ kStarted (kernel w') = true)
  ∧ (r = Ok () ↔ EvWaitExited ∈ trace w')
  ∧ (kStarted (kernel w') = true →
     is_Some (kMounts (kernel w')) ∧ is_Some (kGlobalInit (kernel w'))
     ∧ ∃ pre, trace w' = pre ++ [EvStart; EvWaitExited]).
Proof.
  intros Hrun. apply Run_end in Hrun.
  destruct Hrun; (split; [|split]);
    try (split; [done | done]);
    try (split; [done | intros Hin; in_log Hin]);
    try (split; [intros _; repeat constructor | done]);
    try discriminate.
  - intros _. split; [by eexists|]. split; [by eexists|].
    by eexists [_; _].
  - intros _. split; [by eexists|]. split; [by eexists|].
    by eexists [_; _; _].
Qed.

Lemma Run_success_iff_started_witness :
  (Run (chainEnv 41) exampleOpt newWorld).1 ≠ Ok ().
Proof.
  destruct (Run_success_iff_started (chainEnv 41) exampleOpt
              (Run (chainEnv 41) exampleOpt newWorld).1
              (Run (chainEnv 41) exampleOpt newWorld).2) as ([Hok _] & _ & _).
  - by destruct (Run (chainEnv 41) exampleOpt newWorld).
  - intros Hr. apply Hok in Hr. vm_compute in Hr. discriminate Hr.
Defined.

(** X15. [InitForegroundProcessGroup] is called in terminal mode only, at
    most once, on the file of slot 0 of the table the importer returned,
    with the process group of the init process. *)
Theorem Run_foreground_only_terminal env o r w' :
  Run env o newWorld = (r, w') →
  (TTY o = false → ∀ f pg, EvInitForegroundProcessGroup f pg ∉ trace w')
  ∧ (List.length (List.filter isInitForeground (trace w')) ≤ 1)%nat
  ∧ ∀ f pg, EvInitForegroundProcessGroup f pg ∈ trace w' →
      TTY o = true
      ∧ kGlobalInit (kernel w') = Some {| tgProcessGroup := pg |}
      ∧ ∃ table, importedTable env o table ∧ GetFile (Some table) 0 = Some f.
Proof.
  intros Hrun. apply Run_end in Hrun.
  destruct Hrun; (split; [|split]);
    try (intros Hno f' pg' Hin; in_log Hin; congruence);
    try (cbn; lia);
    try (intros f' pg' Hin; in_log Hin;
         try (split; [done|]; split; [reflexivity|];
              eexists; split; eassumption)).
Qed.

Lemma Run_foreground_only_terminal_witness :
  EvInitForegroundProcessGroup 0 1
  ∉ trace (Run exampleEnv
             {| HostNet := false; TTY := false; Mounts := "/a";
                Args := ["/bin/sh"] |} newWorld).2.
Proof.
  destruct (Run_foreground_only_terminal exampleEnv
              {| HostNet := false; TTY := false; Mounts := "/a";
                 Args := ["/bin/sh"] |}
              (Run exampleEnv
                 {| HostNet := false; TTY := false; Mounts := "/a";
                    Args := ["/bin/sh"] |} newWorld).1
              (Run exampleEnv
                 {| HostNet := false; TTY := false; Mounts := "/a";
                    Args := ["/bin/sh"] |} newWorld).2) as (Hno & _ & _).
  - apply surjective_pairing.
  - apply Hno. reflexivity.
Defined.


(** X17. A memory file that cannot be created fails the run under two
    prefixes, "creating memory file" over the one [createMemoryFile] gives:
    "error creating memfd" when the memfd call fails, whatever
    [NewMemoryFile] would do, and "error creating pgalloc.MemoryFile" when
    only that call fails. *)
Theorem Run_memory_file_failure env o :
  usageInitFails env = None → newPlatformFails env = None →
  (∀ errno, createMemFDFails env = Some errno →
     createMemoryFile env = Err (Errorf "error creating memfd" (Sys errno))
     ∧ Run env o newWorld
       = (Err (Errorf "creating memory file"
                 (Errorf "error creating memfd" (Sys errno))), newWorld))
  ∧ (∀ errno, createMemFDFails env = None →
       newMemoryFileFails env = Some errno →
       createMemoryFile env
       = Err (Errorf "error creating pgalloc.MemoryFile" (Sys errno))
       ∧ Run env o newWorld
         = (Err (Errorf "creating memory file"
                   (Errorf "error creating pgalloc.MemoryFile" (Sys errno))),
            newWorld)).
Proof.
  intros Hu Hp.
  split; [intros errno Hm | intros errno Hm Hn];
    unfold Run, Run_boot, createMemoryFile, mbind, M_bind, result_mbind,
      result_bind, lift, modifyKernel, outcome, wrap;
    rewrite Hu, Hp, Hm, ?Hn; by cbn.
Qed.



Lemma Run_memory_file_failure_witness :
  Run (bootFaultEnv None None (Some EMFILE) (Some EIO)) exampleOpt newWorld
  = (Err (Errorf "creating memory file"
            (Errorf "error creating memfd" (Sys EMFILE))), newWorld).
Proof.
  destruct (Run_memory_file_failure
              (bootFaultEnv None None (Some EMFILE) (Some EIO)) exampleOpt)
    as [Hmemfd _]; [reflexivity | reflexivity |].
  apply (Hmemfd EMFILE). reflexivity.
Defined.


(** ** The mount option *)

Lemma Split_Join s sep :
  strings.Join (strings.Split s sep) (String sep "") = s.
Proof.
  induction s as [|c s IH]; [reflexivity|]. cbn [strings.Split].
  destruct (Ascii.eqb_spec c sep) as [->|Hne].
  - pose proof (Split_nonempty s sep) as Hnil.
    destruct (strings.Split s sep) as [|h t]; [done|].
    change (String sep (strings.Join (h :: t) (String sep "")) = String sep s).
    by rewrite IH.
  - destruct (strings.Split s sep) as [|h t] eqn:Hs.
    + by destruct (Split_nonempty s sep).
    + rewrite <- IH. destruct t; reflexivity.
Qed.

Lemma Split_free s sep :
  Forall (λ m, occurs sep m = false) (strings.Split s sep).
Proof.
  induction s as [|c s IH]; [by repeat constructor|]. cbn [strings.Split].
  destruct (Ascii.eqb_spec c sep) as [->|Hne].
  - by constructor.
  - destruct (strings.Split s sep) as [|h t].
    + repeat constructor. cbn. rewrite orb_false_r.
      by apply Ascii.eqb_neq.
    + apply Forall_cons in IH as [Hh Ht]. constructor; [|done].
      cbn. rewrite Hh, orb_false_r. by apply Ascii.eqb_neq.
Qed.

(** X19. The mount list [Run] makes of the option: it has at least one
    entry, no entry holds a comma, and the entries joined by commas are the
    option again, so empty entries are kept, not dropped. *)
Theorem Run_mount_list o :
  let mounts := strings.Split (Mounts o) ","%char in
  mounts ≠ []
  ∧ Forall (λ m, occurs ","%char m = false) mounts
  ∧ strings.Join mounts "," = Mounts o.
Proof.
  cbv zeta. split; [apply Split_nonempty|].
  split; [apply Split_free | apply Split_Join].
Qed.
